(** * Catalog query and presentation layer of eya20/hiring_test

    A shallow embedding of the Go packages [models] (repositories over a
    gorm store) and [catalog] (service and HTTP handlers), followed by the
    properties of the specification that were checked against it.

    Conventions of the embedding:
    - a Go value of type [error] is [option error]; [None] is [nil];
    - a Go slice is a [list]; a [nil] slice and an empty one are both [[]];
    - a Go interface is a type class whose instances are the structs that
      implement it (the gorm-backed repository, the service, test doubles);
    - a method that fills a struct through a pointer takes the pointee and
      returns its new value next to the error;
    - an HTTP handler is the single [api] call it makes on the response
      writer. *)

From Stdlib Require Import ZArith Permutation Sorted.
From stdpp Require Import base list strings.

Local Open Scope string_scope.
Local Open Scope Z_scope.

(** ** Collaborators outside the repository *)

(** shopspring/decimal: a fixed-point number [value * 10 ^ exp].  The Go zero
    value of the struct has a nil coefficient and counts as the number 0. *)
Module decimal.

Record Decimal := mkDecimal { value : option Z; exp : Z }.

(** [decimal.Zero], that is [New(0, 1)]. *)
Definition Zero : Decimal := {| value := Some 0; exp := 1 |}.

(** The zero value of the Go struct, [Decimal{}]. *)
Definition unset : Decimal := {| value := None; exp := 0 |}.

Definition Sign (d : Decimal) : Z :=
  match value d with
  | None => 0
  | Some v => Z.sgn v
  end.

Definition IsZero (d : Decimal) : bool := Sign d =? 0.

(** [decimal.New(value, exp)]. *)
Definition New (v : Z) (e : Z) : Decimal := {| value := Some v; exp := e |}.

End decimal.

(** Go error values.  The only comparison of error values in the sources is
    against gorm's package-level sentinel, so an error is either that
    sentinel or some other value with its descriptive text. *)
Inductive error : Type :=
  | ErrRecordNotFound
  | errors_New (text : string).

Module gorm.
Definition ErrRecordNotFound : error := ErrRecordNotFound.
End gorm.

(** The [Error()] method. *)
Definition Error (e : error) : string :=
  match e with
  | ErrRecordNotFound => "record not found"
  | errors_New text => text
  end.

(** [err == gorm.ErrRecordNotFound]: identity with the sentinel. *)
Definition is_ErrRecordNotFound (e : error) : bool :=
  match e with
  | ErrRecordNotFound => true
  | errors_New _ => false
  end.

Module http.
Definition StatusOK : Z := 200.
Definition StatusBadRequest : Z := 400.
Definition StatusNotFound : Z := 404.
Definition StatusConflict : Z := 409.
Definition StatusInternalServerError : Z := 500.
Definition StatusServiceUnavailable : Z := 503.
End http.

(** What the code takes from its platform without defining it: the float64
    type with the decimal-to-float conversion, the store's ordering of
    numeric values ([<] in a WHERE clause, with the coercions of a numeric
    column and of a float64 bind parameter) and of text ([ORDER BY]), and
    the message builder of package [api].  The store's [<] is strict: no
    value is below itself. *)
Class Platform := {
  float64 : Type;
  float64_zero : float64;
  InexactFloat64 : decimal.Decimal → float64;
  sql_num : Type;
  sql_lt : sql_num → sql_num → bool;
  sql_lt_irrefl : ∀ x, sql_lt x x = false;
  sql_of_numeric : decimal.Decimal → sql_num;
  sql_of_float64 : float64 → sql_num;
  sql_text_le : string → string → bool;
  BuildErrorMessage : string → error → string
}.

(** [strings.TrimPrefix]. *)
Fixpoint strings_TrimPrefix_aux (s pre : string) {struct pre} : option string :=
  match pre with
  | EmptyString => Some s
  | String c pre' =>
      match s with
      | EmptyString => None
      | String d s' =>
          if Ascii.eqb c d then strings_TrimPrefix_aux s' pre' else None
      end
  end.

Definition strings_TrimPrefix (s pre : string) : string :=
  match strings_TrimPrefix_aux s pre with
  | Some rest => rest
  | None => s
  end.

(** [dst := make([]B, len(src)); for i, v := range src { dst[i] = f(v) }]:
    the loop body assigns the slots of [dst] one index at a time. *)
Fixpoint range_assign {A B} (f : A → B) (i : nat) (src : list A)
    (dst : list B) : list B :=
  match src with
  | [] => dst
  | v :: rest => range_assign f (S i) rest (<[i := f v]> dst)
  end.

Definition make_and_fill {A B} (zero : B) (f : A → B) (src : list A) : list B :=
  range_assign f 0 src (replicate (length src) zero).

(** Stable insertion sort, the store's [ORDER BY]. *)
Fixpoint insert_by {A} (le : A → A → bool) (x : A) (l : list A) : list A :=
  match l with
  | [] => [x]
  | y :: l' => if le x y then x :: l else y :: insert_by le x l'
  end.

Fixpoint sort_by {A} (le : A → A → bool) (l : list A) : list A :=
  match l with
  | [] => []
  | x :: l' => insert_by le x (sort_by le l')
  end.

(** gorm's statement builder over one table: the chained calls of a query
    collect conditions, an ordering, an offset and a limit; [Find], [Count]
    and [First] run the statement.  The store answers every statement with
    its failure signal while one is set. *)
Module gorm_db.
Section Statement.
Context {Row : Type}.

Record Stmt := {
  table : list Row;
  conds : list (Row → bool);
  ordering : option (Row → Row → bool);
  offset : Z;
  limit : option Z
}.

Definition Model (rows : list Row) : Stmt :=
  {| table := rows; conds := []; ordering := None; offset := 0; limit := None |}.

Definition Where (c : Row → bool) (q : Stmt) : Stmt :=
  {| table := table q; conds := (conds q ++ [c])%list; ordering := ordering q;
     offset := offset q; limit := limit q |}.

Definition Order (le : Row → Row → bool) (q : Stmt) : Stmt :=
  {| table := table q; conds := conds q; ordering := Some le;
     offset := offset q; limit := limit q |}.

Definition Offset (n : Z) (q : Stmt) : Stmt :=
  {| table := table q; conds := conds q; ordering := ordering q;
     offset := n; limit := limit q |}.

Definition Limit (n : Z) (q : Stmt) : Stmt :=
  {| table := table q; conds := conds q; ordering := ordering q;
     offset := offset q; limit := Some n |}.

(** A row is selected when it satisfies every condition. *)
Definition selected (q : Stmt) (r : Row) : bool :=
  forallb (λ c, c r) (conds q).

Definition ordered (q : Stmt) (rows : list Row) : list Row :=
  match ordering q with
  | Some le => sort_by le rows
  | None => rows
  end.

(** The LIMIT clause is written for a limit [>= 0] and the OFFSET clause
    for an offset [> 0]. *)
Definition window (off : Z) (lim : option Z) (rows : list Row) : list Row :=
  let rows := if 0 <? off then drop (Z.to_nat off) rows else rows in
  match lim with
  | Some n => if 0 <=? n then take (Z.to_nat n) rows else rows
  | None => rows
  end.

Definition paged (q : Stmt) (rows : list Row) : list Row :=
  window (offset q) (limit q) rows.

Definition run (q : Stmt) : list Row :=
  paged q (ordered q (List.filter (selected q) (table q))).

Definition Find (fault : option error) (q : Stmt) : list Row * option error :=
  match fault with
  | Some e => ([], Some e)
  | None => (run q, None)
  end.

Definition Count (fault : option error) (q : Stmt) : Z * option error :=
  match fault with
  | Some e => (0, Some e)
  | None => (Z.of_nat (length (List.filter (selected q) (table q))), None)
  end.

(** [First] orders by primary key, keeps one row, and reports
    [ErrRecordNotFound] when there is none; the destination is written
    only on success.  A destination whose primary key is not zero adds the
    condition that the row has this primary key. *)
Definition First (fault : option error) (pk : Row → Z) (q : Stmt)
    (dest : Row) : Row * option error :=
  match fault with
  | Some e => (dest, Some e)
  | None =>
      let q := if pk dest =? 0 then q else Where (λ r, pk r =? pk dest) q in
      match sort_by (λ a b, pk a <=? pk b) (List.filter (selected q) (table q)) with
      | r :: _ => (r, None)
      | [] => (dest, Some gorm.ErrRecordNotFound)
      end
  end.

End Statement.
Arguments Stmt : clear implicits.
End gorm_db.

(** ** Package models *)

Module models.

(** [Category]: a unique code and a human-readable name. *)
Record Category := { Category_ID : Z; Category_Code : string; Category_Name : string }.

(** Modelled from the spec: the declarations of [models.Variant] and
    [models.Product] are not among the sources.  A Variant has a display
    name, a SKU and an override price; a Product has a code, a price, its
    Category and its Variants.  The fields are those the service reads and
    the service tests build. *)
Record Variant := { Variant_Name : string; Variant_SKU : string; Variant_Price : decimal.Decimal }.

Record Product := {
  ID : Z;
  Code : string;
  Price : decimal.Decimal;
  Category_ : Category;
  Variants : list Variant
}.

(** Go zero values. *)
Definition Category_zero : Category :=
  {| Category_ID := 0; Category_Code := ""; Category_Name := "" |}.

Definition Product_zero : Product :=
  {| ID := 0; Code := ""; Price := decimal.unset; Category_ := Category_zero;
     Variants := [] |}.

(** The store behind [*gorm.DB]: the failure signal it currently answers
    with, if any, and its tables.  Product rows are held as gorm loads them
    with [Preload("Category")] and [Preload("Variants")]; a product without
    a category carries the zero Category.  [unique_violation] is the signal
    the engine raises when an insert breaks a UNIQUE constraint. *)
Record DB := {
  fault : option error;
  products : list Product;
  categories : list Category;
  unique_violation : error
}.

(** [ProductsRepositoryInterface] *)
Class ProductsRepositoryInterface `{Platform} (R : Type) := {
  GetAllProducts : R → list Product * option error;
  GetProductsPaginated : R → Z → Z → list Product * option error;
  GetProductsCount : R → Z * option error;
  GetProductsPaginatedWithFilters :
    R → Z → Z → string → option float64 → list Product * option error;
  GetProductsCountWithFilters : R → string → option float64 → Z * option error;
  GetProductByCode : R → string → Product → Product * option error
}.

(** [CategoriesRepositoryInterface]; [CreateCategory] changes the store
    and the category behind its pointer argument. *)
Class CategoriesRepositoryInterface (R : Type) := {
  GetAllCategories : R → list Category * option error;
  GetCategoryByCode : R → string → Category * option error;
  CreateCategory : R → Category → R * Category * option error
}.

Record ProductsRepository := { db : DB }.
Record CategoriesRepository := { cdb : DB }.

Section Repositories.
Context `{Platform}.

(** [JOIN categories ON products.category_id = categories.id] followed by
    [WHERE categories.name = ?]: the row has a category and its name is
    the argument. *)
Definition category_name_is (category : string) (p : Product) : bool :=
  String.eqb (Category_Name (Category_ p)) category.

(** [WHERE products.price < ?] *)
Definition price_lt (bound : float64) (p : Product) : bool :=
  sql_lt (sql_of_numeric (Price p)) (sql_of_float64 bound).

(** [ORDER BY products.code ASC] *)
Definition code_asc (p q : Product) : bool := sql_text_le (Code p) (Code q).

Definition ProductsRepository_GetAllProducts (r : ProductsRepository)
    : list Product * option error :=
  gorm_db.Find (fault (db r)) (gorm_db.Model (products (db r))).

Definition ProductsRepository_GetProductsPaginated (r : ProductsRepository)
    (offset limit : Z) : list Product * option error :=
  gorm_db.Find (fault (db r))
    (gorm_db.Limit limit (gorm_db.Offset offset (gorm_db.Model (products (db r))))).

Definition ProductsRepository_GetProductsCount (r : ProductsRepository)
    : Z * option error :=
  gorm_db.Count (fault (db r)) (gorm_db.Model (products (db r))).

Definition ProductsRepository_GetProductsPaginatedWithFilters
    (r : ProductsRepository) (offset limit : Z) (category : string)
    (priceLt : option float64) : list Product * option error :=
  let query := gorm_db.Model (products (db r)) in
  (* Apply category filter *)
  let query :=
    if String.eqb category "" then query
    else gorm_db.Where (category_name_is category) query in
  (* Apply price filter *)
  let query :=
    match priceLt with
    | Some bound => gorm_db.Where (price_lt bound) query
    | None => query
    end in
  gorm_db.Find (fault (db r))
    (gorm_db.Limit limit (gorm_db.Offset offset (gorm_db.Order code_asc query))).

Definition ProductsRepository_GetProductsCountWithFilters
    (r : ProductsRepository) (category : string) (priceLt : option float64)
    : Z * option error :=
  let query := gorm_db.Model (products (db r)) in
  (* Apply category filter *)
  let query :=
    if String.eqb category "" then query
    else gorm_db.Where (category_name_is category) query in
  (* Apply price filter *)
  let query :=
    match priceLt with
    | Some bound => gorm_db.Where (price_lt bound) query
    | None => query
    end in
  gorm_db.Count (fault (db r)) query.

(** [Where("code = ?", code).First(product)] *)
Definition ProductsRepository_GetProductByCode (r : ProductsRepository)
    (code : string) (product : Product) : Product * option error :=
  gorm_db.First (fault (db r)) ID
    (gorm_db.Where (λ p, String.eqb (Code p) code) (gorm_db.Model (products (db r))))
    product.

#[global] Instance ProductsRepository_impl
    : ProductsRepositoryInterface ProductsRepository := {
  GetAllProducts := ProductsRepository_GetAllProducts;
  GetProductsPaginated := ProductsRepository_GetProductsPaginated;
  GetProductsCount := ProductsRepository_GetProductsCount;
  GetProductsPaginatedWithFilters := ProductsRepository_GetProductsPaginatedWithFilters;
  GetProductsCountWithFilters := ProductsRepository_GetProductsCountWithFilters;
  GetProductByCode := ProductsRepository_GetProductByCode
}.

End Repositories.

Definition CategoriesRepository_GetAllCategories (r : CategoriesRepository)
    : list Category * option error :=
  gorm_db.Find (fault (cdb r)) (gorm_db.Model (categories (cdb r))).

Definition CategoriesRepository_GetCategoryByCode (r : CategoriesRepository)
    (code : string) : Category * option error :=
  match gorm_db.First (fault (cdb r)) Category_ID
          (gorm_db.Where (λ c, String.eqb (Category_Code c) code)
             (gorm_db.Model (categories (cdb r))))
          Category_zero with
  | (_, Some err) => (Category_zero, Some err)
  | (category, None) => (category, None)
  end.

(** [db.Create(category)]: the insert is refused while the store is at
    fault or when the code is taken ([code VARCHAR(32) UNIQUE]); otherwise
    the row gets the next serial id, which is written back. *)
Definition next_id (rows : list Category) : Z :=
  1 + foldr (λ c acc, Z.max (Category_ID c) acc) 0 rows.

Definition CategoriesRepository_CreateCategory (r : CategoriesRepository)
    (category : Category) : CategoriesRepository * Category * option error :=
  match fault (cdb r) with
  | Some err => (r, category, Some err)
  | None =>
      if existsb (λ c, String.eqb (Category_Code c) (Category_Code category))
           (categories (cdb r))
      then (r, category, Some (unique_violation (cdb r)))
      else
        let created :=
          {| Category_ID := next_id (categories (cdb r));
             Category_Code := Category_Code category;
             Category_Name := Category_Name category |} in
        ({| cdb := {| fault := None; products := products (cdb r);
                      categories := (categories (cdb r) ++ [created])%list;
                      unique_violation := unique_violation (cdb r) |} |},
         created, None)
  end.

#[global] Instance CategoriesRepository_impl
    : CategoriesRepositoryInterface CategoriesRepository := {
  GetAllCategories := CategoriesRepository_GetAllCategories;
  GetCategoryByCode := CategoriesRepository_GetCategoryByCode;
  CreateCategory := CategoriesRepository_CreateCategory
}.

End models.

(** ** Package api *)

(** Modelled from the spec: package [app/api] is not among the sources.  Its
    two writers put a status code and a JSON body on the response:
    [ErrorResponse] the given status with an error message, [OKResponse]
    status 200 with the data.  The status codes stand for the outcomes of the
    specification: 400 ValidationError, 404 NotFound, 409 Conflict,
    503 ServiceUnavailable, 500 Internal. *)
Module api.

Inductive Reply (A : Type) : Type :=
  | ErrorResponse (status : Z) (message : string)
  | OKResponse (data : A).
Arguments ErrorResponse {A} status message.
Arguments OKResponse {A} data.

Definition status_code {A} (r : Reply A) : Z :=
  match r with
  | ErrorResponse status _ => status
  | OKResponse _ => http.StatusOK
  end.

Inductive Outcome : Type :=
  | Success | ValidationError | NotFound | Conflict | ServiceUnavailable | Internal.

Definition outcome {A} (r : Reply A) : option Outcome :=
  let s := status_code r in
  if s =? 200 then Some Success
  else if s =? 400 then Some ValidationError
  else if s =? 404 then Some NotFound
  else if s =? 409 then Some Conflict
  else if s =? 503 then Some ServiceUnavailable
  else if s =? 500 then Some Internal
  else None.

End api.

(** ** Package catalog *)

Module catalog.
Section Catalog.
Context `{Platform}.

(** [Product] represents a product in the API response. *)
Record Product := { Code : string; Price : float64; Category_ : string }.

(** [Variant] represents a product variant in the API response. *)
Record Variant := { Name : string; SKU : string; Variant_Price : float64 }.

(** [ProductDetails] represents a product with its variants. *)
Record ProductDetails := {
  Details_Code : string;
  Details_Price : float64;
  Details_Category : string;
  Details_Variants : list Variant
}.

(** [Response] represents the catalog API response. *)
Record Response := { Products : list Product; Total : Z }.

(** [Category] and [CreateCategoryRequest] of the categories endpoint. *)
Record Category := { Category_Code : string; Category_Name : string }.
Record CreateCategoryRequest := { Request_Code : string; Request_Name : string }.

(** Go zero values. *)
Definition Product_zero : Product :=
  {| Code := ""; Price := float64_zero; Category_ := "" |}.
Definition Variant_zero : Variant :=
  {| Name := ""; SKU := ""; Variant_Price := float64_zero |}.
Definition ProductDetails_zero : ProductDetails :=
  {| Details_Code := ""; Details_Price := float64_zero; Details_Category := "";
     Details_Variants := [] |}.
Definition Category_zero : Category := {| Category_Code := ""; Category_Name := "" |}.

(** [CatalogService] defines the business logic interface. *)
Class CatalogService (S : Type) := {
  GetProducts : S → list Product * option error;
  GetProductsPaginated : S → Z → Z → list Product * Z * option error;
  GetProductsPaginatedWithFilters :
    S → Z → Z → string → option float64 → list Product * Z * option error;
  GetProductByCode : S → string → ProductDetails * option error
}.

(** [catalogService] implements the interface over a repository. *)
Record catalogService (R : Type) := { repo : R }.
Arguments repo {R} _.

Section Service.
Context {R : Type} `{!models.ProductsRepositoryInterface R}.

(** The body of the mapping loops of the three list operations. *)
Definition to_api_product (p : models.Product) : Product :=
  {| Code := models.Code p;
     Price := InexactFloat64 (models.Price p);
     Category_ := models.Category_Name (models.Category_ p) |}.

Definition catalogService_GetProducts (s : catalogService R)
    : list Product * option error :=
  match models.GetAllProducts (repo s) with
  | (_, Some err) => ([], Some err)
  | (dbProducts, None) =>
      (* Check if no products found *)
      if (length dbProducts =? 0)%nat then ([], None)
      else
        (* Map database products to API products *)
        (make_and_fill Product_zero to_api_product dbProducts, None)
  end.

Definition catalogService_GetProductsPaginatedWithFilters (s : catalogService R)
    (offset limit : Z) (category : string) (priceLt : option float64)
    : list Product * Z * option error :=
  match models.GetProductsPaginatedWithFilters (repo s) offset limit category priceLt with
  | (_, Some err) => ([], 0, Some err)
  | (dbProducts, None) =>
      match models.GetProductsCountWithFilters (repo s) category priceLt with
      | (_, Some err) => ([], 0, Some err)
      | (total, None) =>
          (make_and_fill Product_zero to_api_product dbProducts, total, None)
      end
  end.

Definition catalogService_GetProductsPaginated (s : catalogService R)
    (offset limit : Z) : list Product * Z * option error :=
  match models.GetProductsPaginated (repo s) offset limit with
  | (_, Some err) => ([], 0, Some err)
  | (dbProducts, None) =>
      match models.GetProductsCount (repo s) with
      | (_, Some err) => ([], 0, Some err)
      | (total, None) =>
          (make_and_fill Product_zero to_api_product dbProducts, total, None)
      end
  end.

(** The body of the variant loop: the price defaults to the product's
    and is replaced by the variant's own when that is not zero. *)
Definition to_api_variant (dbProduct : models.Product) (v : models.Variant)
    : Variant :=
  let price := InexactFloat64 (models.Price dbProduct) in
  let price :=
    if negb (decimal.IsZero (models.Variant_Price v))
    then InexactFloat64 (models.Variant_Price v)
    else price in
  {| Name := models.Variant_Name v; SKU := models.Variant_SKU v;
     Variant_Price := price |}.

Definition catalogService_GetProductByCode (s : catalogService R)
    (code : string) : ProductDetails * option error :=
  match models.GetProductByCode (repo s) code models.Product_zero with
  | (_, Some err) => (ProductDetails_zero, Some err)
  | (dbProduct, None) =>
      (* Map variants with price inheritance logic *)
      let variants :=
        make_and_fill Variant_zero (to_api_variant dbProduct)
          (models.Variants dbProduct) in
      ({| Details_Code := models.Code dbProduct;
          Details_Price := InexactFloat64 (models.Price dbProduct);
          Details_Category := models.Category_Name (models.Category_ dbProduct);
          Details_Variants := variants |}, None)
  end.

#[global] Instance catalogService_impl : CatalogService (catalogService R) := {
  GetProducts := catalogService_GetProducts;
  GetProductsPaginated := catalogService_GetProductsPaginated;
  GetProductsPaginatedWithFilters := catalogService_GetProductsPaginatedWithFilters;
  GetProductByCode := catalogService_GetProductByCode
}.

End Service.

(** [CatalogHandler] handles HTTP requests for catalog operations. *)
Record CatalogHandler (S : Type) := { service : S }.
Arguments service {S} _.

Section CatalogHandlers.
Context {S : Type} `{!CatalogService S}.

(** [GetCatalog] handles GET requests to the catalog endpoint. *)
Definition GetCatalog (h : CatalogHandler S) : api.Reply Response :=
  match GetProducts (service h) with
  | (_, Some err) =>
      (* Handle different types of errors *)
      if String.eqb (Error err) "database connection failed" then
        api.ErrorResponse http.StatusServiceUnavailable
          (BuildErrorMessage "Database service is temporarily unavailable: " err)
      else
        (* Generic database error *)
        api.ErrorResponse http.StatusInternalServerError
          (BuildErrorMessage "Unable to retrieve products at this time: " err)
  | (products, None) =>
      api.OKResponse
        {| Products := products; Total := Z.of_nat (length products) |}
  end.

(** [GetProductDetails] handles GET requests to the product details
    endpoint; [path] is [r.URL.Path]. *)
Definition GetProductDetails (h : CatalogHandler S) (path : string)
    : api.Reply ProductDetails :=
  let code := strings_TrimPrefix path "/catalog/" in
  if String.eqb code "" then
    api.ErrorResponse http.StatusBadRequest "Product code is required"
  else
    match GetProductByCode (service h) code with
    | (_, Some err) =>
        if is_ErrRecordNotFound err then
          api.ErrorResponse http.StatusNotFound "Product not found"
        else if String.eqb (Error err) "database connection failed" then
          api.ErrorResponse http.StatusServiceUnavailable
            (BuildErrorMessage "Database service is temporarily unavailable: " err)
        else
          (* Generic database error *)
          api.ErrorResponse http.StatusInternalServerError
            (BuildErrorMessage "Unable to retrieve product: " err)
    | (product, None) => api.OKResponse product
    end.

End CatalogHandlers.

(** [CategoriesHandler] handles HTTP requests for category operations. *)
Record CategoriesHandler (R : Type) := { categories_repo : R }.
Arguments categories_repo {R} _.

Section CategoriesHandlers.
Context {R : Type} `{!models.CategoriesRepositoryInterface R}.

Definition to_api_category (c : models.Category) : Category :=
  {| Category_Code := models.Category_Code c;
     Category_Name := models.Category_Name c |}.

(** [GetCategories] handles GET requests to the categories endpoint. *)
Definition GetCategories (h : CategoriesHandler R) : api.Reply (list Category) :=
  match models.GetAllCategories (categories_repo h) with
  | (_, Some err) =>
      if String.eqb (Error err) "database connection failed" then
        api.ErrorResponse http.StatusServiceUnavailable
          (BuildErrorMessage "Database service is temporarily unavailable: " err)
      else
        api.ErrorResponse http.StatusInternalServerError
          (BuildErrorMessage "Unable to retrieve categories at this time: " err)
  | (dbCategories, None) =>
      api.OKResponse (make_and_fill Category_zero to_api_category dbCategories)
  end.

(** [CreateCategory] handles POST requests to the categories endpoint.
    [body] is what decoding the request body as JSON gives: [None] when
    the decoder fails, otherwise the request with absent fields empty.
    The handler is returned with its repository after the call. *)
Definition CreateCategory (h : CategoriesHandler R)
    (body : option CreateCategoryRequest)
    : CategoriesHandler R * api.Reply Category :=
  match body with
  | None => (h, api.ErrorResponse http.StatusBadRequest "Invalid JSON format")
  | Some req =>
      (* Validate required fields *)
      if String.eqb (Request_Code req) "" then
        (h, api.ErrorResponse http.StatusBadRequest "Code is required")
      else if String.eqb (Request_Name req) "" then
        (h, api.ErrorResponse http.StatusBadRequest "Name is required")
      else
        (* Create database category *)
        let dbCategory :=
          {| models.Category_ID := 0; models.Category_Code := Request_Code req;
             models.Category_Name := Request_Name req |} in
        match models.CreateCategory (categories_repo h) dbCategory with
        | (r, _, Some err) =>
            let h := {| categories_repo := r |} in
            (* Handle different types of errors *)
            if String.eqb (Error err) "database connection failed" then
              (h, api.ErrorResponse http.StatusServiceUnavailable
                    (BuildErrorMessage "Database service is temporarily unavailable: " err))
            (* Handle unique constraint violation (duplicate code) *)
            else if String.eqb (Error err) "UNIQUE constraint failed: categories.code"
                    || String.eqb (Error err) "duplicate key value violates unique constraint"
            then
              (h, api.ErrorResponse http.StatusConflict
                    "Category with this code already exists")
            else
              (* Generic database error *)
              (h, api.ErrorResponse http.StatusInternalServerError
                    (BuildErrorMessage "Unable to create category: " err))
        | (r, dbCategory, None) =>
            (* Return created category *)
            ({| categories_repo := r |},
             api.OKResponse
               {| Category_Code := models.Category_Code dbCategory;
                  Category_Name := models.Category_Name dbCategory |})
        end
  end.

End CategoriesHandlers.

End Catalog.

Arguments repo {R} _.
Arguments service {S} _.
Arguments categories_repo {R} _.

End catalog.

(** ** Package main *)

(** [mux.HandleFunc("GET /catalog/{code}", catalogHandler.GetProductDetails)]:
    the wildcard stands for one path segment that is not empty, so every
    path that the mux hands to GetProductDetails is "/catalog/" followed by
    a text that is not empty.  [routed_code path] is that text when [path]
    has this form, and [None] for a path that the route does not take, such
    as "/catalog/". *)
Definition routed_code (path : string) : option string :=
  match strings_TrimPrefix_aux path "/catalog/" with
  | Some code => if String.eqb code "" then None else Some code
  | None => None
  end.

(** ** A platform to run the code on

    Numbers are exact counts of hundredths, which suits the two-decimal
    prices of the schema; text is ordered bytewise; an error message is the
    prefix followed by the text of the error.  This stands in for float64
    on the test data only: it is exact for decimals of at most two places
    and does not round as the float conversion does.  The properties below
    are proved for every platform, not for this one. *)
Definition hundredths_of (d : decimal.Decimal) : Z :=
  match decimal.value d with
  | None => 0
  | Some v => v * 10 ^ (decimal.exp d + 2)
  end.

#[global] Instance hundredths : Platform := {
  float64 := Z;
  float64_zero := 0;
  InexactFloat64 := hundredths_of;
  sql_num := Z;
  sql_lt := Z.ltb;
  sql_lt_irrefl := Z.ltb_irrefl;
  sql_of_numeric := hundredths_of;
  sql_of_float64 := λ x, x;
  sql_text_le := String.leb;
  BuildErrorMessage := λ pre err, pre ++ Error err
}.

(** ** Test doubles

    The mocks of the test files answer each method with what the test
    registered for it. *)
Record MockProductsRepository `{Platform} := {
  on_GetAllProducts : list models.Product * option error;
  on_GetProductsPaginated : Z → Z → list models.Product * option error;
  on_GetProductsCount : Z * option error;
  on_GetProductsPaginatedWithFilters :
    Z → Z → string → option float64 → list models.Product * option error;
  on_GetProductsCountWithFilters : string → option float64 → Z * option error;
  on_GetProductByCode : string → models.Product → models.Product * option error
}.

#[global] Instance MockProductsRepository_impl `{Platform}
    : models.ProductsRepositoryInterface MockProductsRepository := {
  models.GetAllProducts m := on_GetAllProducts m;
  models.GetProductsPaginated m := on_GetProductsPaginated m;
  models.GetProductsCount m := on_GetProductsCount m;
  models.GetProductsPaginatedWithFilters m := on_GetProductsPaginatedWithFilters m;
  models.GetProductsCountWithFilters m := on_GetProductsCountWithFilters m;
  models.GetProductByCode m := on_GetProductByCode m
}.

Record MockCatalogService `{Platform} := {
  on_GetProducts : list catalog.Product * option error;
  on_ServicePaginated : Z → Z → list catalog.Product * Z * option error;
  on_ServicePaginatedWithFilters :
    Z → Z → string → option float64 → list catalog.Product * Z * option error;
  on_ServiceGetProductByCode : string → catalog.ProductDetails * option error
}.

#[global] Instance MockCatalogService_impl `{Platform}
    : catalog.CatalogService MockCatalogService := {
  catalog.GetProducts m := on_GetProducts m;
  catalog.GetProductsPaginated m := on_ServicePaginated m;
  catalog.GetProductsPaginatedWithFilters m := on_ServicePaginatedWithFilters m;
  catalog.GetProductByCode m := on_ServiceGetProductByCode m
}.

Record MockCategoriesRepository := {
  on_GetAllCategories : list models.Category * option error;
  on_GetCategoryByCode : string → models.Category * option error;
  on_CreateCategory : models.Category → option error
}.

#[global] Instance MockCategoriesRepository_impl
    : models.CategoriesRepositoryInterface MockCategoriesRepository := {
  models.GetAllCategories m := on_GetAllCategories m;
  models.GetCategoryByCode m := on_GetCategoryByCode m;
  models.CreateCategory m c := (m, c, on_CreateCategory m c)
}.

(** ** Vocabulary of the properties *)

Section Vocabulary.
Context `{Platform}.

(** The filter of a list request in the words of the specification: an
    empty category and an absent bound restrict nothing, a category keeps
    the products whose category has that name, a bound keeps the products
    priced strictly below it, and both apply together. *)
Definition filter_matches (category : string) (priceLt : option float64)
    (p : models.Product) : bool :=
  (String.eqb category ""
   || String.eqb (models.Category_Name (models.Category_ p)) category)
  && match priceLt with
     | None => true
     | Some bound => sql_lt (sql_of_numeric (models.Price p)) (sql_of_float64 bound)
     end.

(** The category handed to the repository for a request. *)
Definition category_of_request (req : catalog.CreateCategoryRequest)
    : models.Category :=
  {| models.Category_ID := 0;
     models.Category_Code := catalog.Request_Code req;
     models.Category_Name := catalog.Request_Name req |}.

End Vocabulary.

(** ** Test data

    The data of the repository's tests and seed scripts, run on the
    [hundredths] platform. *)

Module fixtures.

Definition Clothing : models.Category :=
  {| models.Category_ID := 1; models.Category_Code := "CATGORY001";
     models.Category_Name := "Clothing" |}.
Definition Shoes : models.Category :=
  {| models.Category_ID := 2; models.Category_Code := "CATGORY002";
     models.Category_Name := "Shoes" |}.
Definition Accessories : models.Category :=
  {| models.Category_ID := 3; models.Category_Code := "CATGORY003";
     models.Category_Name := "Accessories" |}.

(** PROD001 of the service test: 29.99, with a variant at 29.99 and a
    variant without a price of its own. *)
Definition PROD001 : models.Product :=
  {| models.ID := 1; models.Code := "PROD001";
     models.Price := decimal.New 2999 (-2);
     models.Category_ := Clothing;
     models.Variants :=
       [ {| models.Variant_Name := "Small"; models.Variant_SKU := "PROD001-S";
            models.Variant_Price := decimal.New 2999 (-2) |};
         {| models.Variant_Name := "Large"; models.Variant_SKU := "PROD001-L";
            models.Variant_Price := decimal.Zero |} ] |}.

Definition PROD002 : models.Product :=
  {| models.ID := 2; models.Code := "PROD002";
     models.Price := decimal.New 4999 (-2);
     models.Category_ := Shoes; models.Variants := [] |}.

(** A product priced exactly 30.00, on the bound of the price filter. *)
Definition PROD003 : models.Product :=
  {| models.ID := 3; models.Code := "PROD003";
     models.Price := decimal.New 3000 (-2);
     models.Category_ := Accessories; models.Variants := [] |}.

Definition store : models.DB :=
  {| models.fault := None;
     models.products := [PROD002; PROD003; PROD001];
     models.categories := [Clothing; Shoes; Accessories];
     models.unique_violation :=
       errors_New "duplicate key value violates unique constraint" |}.

Definition empty_store : models.DB :=
  {| models.fault := None; models.products := []; models.categories := [];
     models.unique_violation :=
       errors_New "duplicate key value violates unique constraint" |}.

Definition unexpected_call : error := errors_New "mock: unexpected call".

(** The products mock of the service tests. *)
Definition products_mock (all : list models.Product * option error)
    : MockProductsRepository :=
  {| on_GetAllProducts := all;
     on_GetProductsPaginated := λ _ _, ([], Some unexpected_call);
     on_GetProductsCount := (0, Some unexpected_call);
     on_GetProductsPaginatedWithFilters := λ _ _ _ _, ([], Some unexpected_call);
     on_GetProductsCountWithFilters := λ _ _, (0, Some unexpected_call);
     on_GetProductByCode := λ code product,
       if String.eqb code "PROD001" then (PROD001, None)
       else (product, Some unexpected_call) |}.

(** The service mock of the handler tests. *)
Definition service_mock (all : list catalog.Product * option error)
    (by_code : string → catalog.ProductDetails * option error)
    : MockCatalogService :=
  {| on_GetProducts := all;
     on_ServicePaginated := λ _ _, ([], 0, Some unexpected_call);
     on_ServicePaginatedWithFilters := λ _ _ _ _, ([], 0, Some unexpected_call);
     on_ServiceGetProductByCode := by_code |}.

(** The categories mock of the handler tests. *)
Definition categories_mock (all : list models.Category * option error)
    (create : option error) : MockCategoriesRepository :=
  {| on_GetAllCategories := all;
     on_GetCategoryByCode := λ _, (models.Category_zero, Some unexpected_call);
     on_CreateCategory := λ _, create |}.

(** A products mock for the paginated operations: one answer for the page
    queries and one for the count queries. *)
Definition paging_mock (page : list models.Product * option error)
    (count : Z * option error) : MockProductsRepository :=
  {| on_GetAllProducts := ([], Some unexpected_call);
     on_GetProductsPaginated := λ _ _, page;
     on_GetProductsCount := count;
     on_GetProductsPaginatedWithFilters := λ _ _ _ _, page;
     on_GetProductsCountWithFilters := λ _ _, count;
     on_GetProductByCode := λ _ product, (product, Some unexpected_call) |}.

Definition connection_failed : error := errors_New "database connection failed".

Definition expectedProducts : list catalog.Product :=
  [ {| catalog.Code := "PROD001"; catalog.Price := 2999; catalog.Category_ := "Clothing" |};
    {| catalog.Code := "PROD002"; catalog.Price := 4999; catalog.Category_ := "Shoes" |} ].

Definition expectedProduct : catalog.ProductDetails :=
  {| catalog.Details_Code := "PROD001"; catalog.Details_Price := 2999;
     catalog.Details_Category := "Clothing";
     catalog.Details_Variants :=
       [ {| catalog.Name := "Small"; catalog.SKU := "PROD001-S";
            catalog.Variant_Price := 2999 |};
         {| catalog.Name := "Large"; catalog.SKU := "PROD001-L";
            catalog.Variant_Price := 2999 |} ] |}.

End fixtures.

(** * Properties *)

(** ** The mapping loops *)

Lemma range_assign_take {A B} (f : A → B) (src : list A) :
  ∀ (i : nat) (dst : list B),
    length dst = (i + length src)%nat →
    range_assign f i src dst = (take i dst ++ (f <$> src))%list.
Proof.
  induction src as [|v rest IH]; intros i dst Hlen; simpl in *.
  - rewrite take_ge by lia. by rewrite app_nil_r.
  - rewrite IH by (rewrite length_insert; lia).
    assert (Hi : (i < length dst)%nat) by lia.
    rewrite (take_S_r _ i (f v)) by (by apply list_lookup_insert_eq).
    rewrite take_insert_ge by lia.
    by rewrite <- app_assoc.
Qed.

(** Filling a fresh slice slot by slot is mapping the loop body. *)
Lemma make_and_fill_fmap {A B} (zero : B) (f : A → B) (src : list A) :
  make_and_fill zero f src = f <$> src.
Proof.
  unfold make_and_fill.
  rewrite range_assign_take by (by rewrite length_replicate).
  by rewrite take_0.
Qed.

(** ** Ordering and paging keep rows *)

Lemma insert_by_Permutation {A} (le : A → A → bool) (x : A) (l : list A) :
  Permutation (insert_by le x l) (x :: l).
Proof.
  induction l as [|y l IH]; simpl; [done|].
  destruct (le x y); [done|].
  rewrite IH. apply perm_swap.
Qed.

Lemma sort_by_Permutation {A} (le : A → A → bool) (l : list A) :
  Permutation (sort_by le l) l.
Proof.
  induction l as [|x l IH]; simpl; [done|].
  rewrite insert_by_Permutation. by constructor.
Qed.

Lemma window_elem_of {A} (off : Z) (lim : option Z) (rows : list A) (x : A) :
  x ∈ gorm_db.window off lim rows → x ∈ rows.
Proof.
  unfold gorm_db.window. intros Hx.
  assert (Hdrop : ∀ l : list A,
            x ∈ (if 0 <? off then drop (Z.to_nat off) l else l) → x ∈ l).
  { intros l. destruct (0 <? off); [|done].
    intros Hl. eapply subseteq_drop, Hl. }
  apply Hdrop.
  destruct lim as [n|]; [|done].
  destruct (0 <=? n); [|done].
  eapply subseteq_take, Hx.
Qed.

Lemma filter_nil_not_In {A} (f : A → bool) (l : list A) :
  (∀ x, In x l → f x = false) → List.filter f l = [].
Proof.
  induction l as [|y l IH]; intros Hf; simpl; [done|].
  rewrite (Hf y) by (by left).
  apply IH. intros x Hx. apply Hf. by right.
Qed.

(** ** Pages of a result *)

Lemma window_length {A} (off lim : Z) (rows : list A) :
  0 < lim → (length (gorm_db.window off (Some lim) rows) ≤ Z.to_nat lim)%nat.
Proof.
  intros Hlim. unfold gorm_db.window.
  replace (0 <=? lim) with true by (symmetry; apply Z.leb_le; lia).
  rewrite length_take. lia.
Qed.

(** From an offset that is not negative the window starts after that many
    rows. *)
Lemma window_drop_take {A} (off lim : Z) (rows : list A) :
  0 ≤ off → 0 ≤ lim →
  gorm_db.window off (Some lim) rows
  = take (Z.to_nat lim) (drop (Z.to_nat off) rows).
Proof.
  intros Hoff Hlim. unfold gorm_db.window.
  replace (0 <=? lim) with true by (symmetry; apply Z.leb_le; lia).
  destruct (0 <? off) eqn:Hpos; [done|].
  apply Z.ltb_ge in Hpos. by replace off with 0 by lia.
Qed.

Lemma window_app {A} (off n m : Z) (rows : list A) :
  0 ≤ off → 0 ≤ n → 0 ≤ m →
  (gorm_db.window off (Some n) rows ++ gorm_db.window (off + n) (Some m) rows)%list
  = gorm_db.window off (Some (n + m)) rows.
Proof.
  intros Hoff Hn Hm.
  rewrite !window_drop_take by lia.
  rewrite !Z2Nat.inj_add by lia.
  rewrite <- drop_drop. apply take_take_drop.
Qed.

Lemma Sorted_take {A} (R : A → A → Prop) (l : list A) (n : nat) :
  Sorted R l → Sorted R (take n l).
Proof.
  intros Hs. revert n.
  induction Hs as [|x l Hs IH Hhd]; intros [|n]; simpl; try constructor.
  - apply IH.
  - destruct Hhd as [|y l' Hxy]; [destruct n; constructor|].
    destruct n; constructor. done.
Qed.

Lemma Sorted_drop {A} (R : A → A → Prop) (l : list A) (n : nat) :
  Sorted R l → Sorted R (drop n l).
Proof.
  revert l. induction n as [|n IH]; intros l Hs; [done|].
  destruct l as [|x l]; [done|]. simpl.
  apply IH. by inversion Hs.
Qed.

Lemma window_Sorted {A} (R : A → A → Prop) (off : Z) (lim : option Z)
    (rows : list A) :
  Sorted R rows → Sorted R (gorm_db.window off lim rows).
Proof.
  intros Hs. unfold gorm_db.window.
  assert (Hd : Sorted R (if 0 <? off then drop (Z.to_nat off) rows else rows)).
  { destruct (0 <? off); [by apply Sorted_drop|done]. }
  destruct lim as [n|]; [|done].
  destruct (0 <=? n); [by apply Sorted_take|done].
Qed.

Lemma Sorted_map {A B} (R1 : A → A → Prop) (R2 : B → B → Prop) (f : A → B)
    (l : list A) :
  (∀ x y, R1 x y → R2 (f x) (f y)) →
  Sorted R1 l → Sorted R2 (f <$> l).
Proof.
  intros Hf Hs. induction Hs as [|x l Hs IH Hhd]; simpl; constructor; [done|].
  destruct Hhd; constructor. by apply Hf.
Qed.

(** ** The insertion sort sorts *)

Lemma insert_by_Sorted {A} (le : A → A → bool) (x : A) (l : list A) :
  (∀ a b, le a b = true ∨ le b a = true) →
  Sorted (λ a b, le a b = true) l →
  Sorted (λ a b, le a b = true) (insert_by le x l).
Proof.
  intros Htotal Hs.
  induction Hs as [|y l Hs IH Hhd]; simpl.
  - by repeat constructor.
  - destruct (le x y) eqn:Hxy.
    + constructor; [by constructor|by constructor].
    + constructor; [done|].
      assert (Hyx : le y x = true) by (destruct (Htotal x y); congruence).
      destruct Hhd as [|z l' Hyz]; simpl; [by constructor|].
      destruct (le x z); by constructor.
Qed.

Lemma sort_by_Sorted {A} (le : A → A → bool) (l : list A) :
  (∀ a b, le a b = true ∨ le b a = true) →
  Sorted (λ a b, le a b = true) (sort_by le l).
Proof.
  intros Htotal. induction l as [|x l IH]; simpl; [constructor|].
  by apply insert_by_Sorted.
Qed.

(** The first row of a sorted result is below every row of the input. *)
Lemma sort_by_head_least {A} (key : A → Z) (l : list A) (r : A) (rest : list A) :
  sort_by (λ a b, key a <=? key b) l = r :: rest →
  In r l ∧ ∀ x, In x l → key r ≤ key x.
Proof.
  intros Hsort.
  pose proof (sort_by_Permutation (λ a b, key a <=? key b) l) as Hperm.
  pose proof (sort_by_Sorted (λ a b, key a <=? key b) l) as Hsorted.
  rewrite Hsort in Hperm, Hsorted.
  split.
  - eapply Permutation_in; [exact Hperm|by left].
  - intros x Hx.
    apply (Permutation_in _ (Permutation_sym Hperm)) in Hx.
    assert (Hss : StronglySorted (λ a b, (key a <=? key b) = true) (r :: rest)).
    { apply Sorted_StronglySorted.
      - intros a b c Hab Hbc. apply Z.leb_le in Hab, Hbc. apply Z.leb_le. lia.
      - apply Hsorted. intros a b.
        destruct (Z.le_ge_cases (key a) (key b)); [left|right];
          by apply Z.leb_le. }
    destruct Hx as [<-|Hx]; [lia|].
    apply StronglySorted_inv in Hss as [_ Hall].
    rewrite Forall_forall in Hall. apply Z.leb_le. apply Hall.
    by apply list_elem_of_In.
Qed.

(** ** Running a statement *)

Lemma selected_Where {Row} (c : Row → bool) (q : gorm_db.Stmt Row) (r : Row) :
  gorm_db.selected (gorm_db.Where c q) r = gorm_db.selected q r && c r.
Proof.
  unfold gorm_db.selected; simpl.
  rewrite forallb_app; simpl. by rewrite andb_true_r.
Qed.

(** [First] on a statement that selects no row reports that no record was
    found and leaves the destination as it was. *)
Lemma First_not_found {Row} (pk : Row → Z) (q : gorm_db.Stmt Row) (dest : Row) :
  (∀ r, In r (gorm_db.table q) → gorm_db.selected q r = false) →
  gorm_db.First None pk q dest = (dest, Some gorm.ErrRecordNotFound).
Proof.
  intros Hnone. unfold gorm_db.First.
  destruct (pk dest =? 0).
  - by rewrite filter_nil_not_In.
  - rewrite filter_nil_not_In; [done|].
    intros r Hr. rewrite selected_Where. simpl in Hr. by rewrite Hnone.
Qed.

(** ** Zero test of a decimal *)

Lemma IsZero_iff (d : decimal.Decimal) :
  decimal.IsZero d = true ↔ decimal.value d = None ∨ decimal.value d = Some 0.
Proof.
  unfold decimal.IsZero, decimal.Sign.
  destruct (decimal.value d) as [v|]; simpl.
  - rewrite Z.eqb_eq, Z.sgn_null_iff. split.
    + intros ->. by right.
    + intros [?|?]; congruence.
  - split; [by left|done].
Qed.

Section Properties.
Context `{Platform}.

(** ** The service *)

Section ServiceProperties.
Context {R : Type} `{!models.ProductsRepositoryInterface R}.

(** A product comes back from the service exactly when the repository
    delivered one, and then it is the repository's product with the
    variant loop applied. *)
Lemma GetProductByCode_inv (s : catalog.catalogService R) (code : string)
    (details : catalog.ProductDetails) :
  catalog.catalogService_GetProductByCode s code = (details, None) →
  ∃ dbProduct,
    models.GetProductByCode (catalog.repo s) code models.Product_zero
      = (dbProduct, None) ∧
    details =
      {| catalog.Details_Code := models.Code dbProduct;
         catalog.Details_Price := InexactFloat64 (models.Price dbProduct);
         catalog.Details_Category :=
           models.Category_Name (models.Category_ dbProduct);
         catalog.Details_Variants :=
           catalog.to_api_variant dbProduct <$> models.Variants dbProduct |}.
Proof.
  unfold catalog.catalogService_GetProductByCode.
  destruct (models.GetProductByCode _ _ _) as [dbProduct [err|]];
    intros Heq; [discriminate|].
  exists dbProduct. split; [done|].
  rewrite make_and_fill_fmap in Heq. congruence.
Qed.

Lemma GetProductByCode_failure (s : catalog.catalogService R) (code : string)
    (p : models.Product) (err : error) :
  models.GetProductByCode (catalog.repo s) code models.Product_zero
    = (p, Some err) →
  catalog.catalogService_GetProductByCode s code
    = (catalog.ProductDetails_zero, Some err).
Proof.
  unfold catalog.catalogService_GetProductByCode. by intros ->.
Qed.

(** C1: in every product that GetProductByCode returns, a variant whose
    override price is absent or exactly zero carries the price of the
    product, and a variant whose override price is not zero carries that
    override. *)
Theorem GetProductByCode_effective_price (s : catalog.catalogService R)
    (code : string) (details : catalog.ProductDetails) :
  catalog.catalogService_GetProductByCode s code = (details, None) →
  ∃ dbProduct,
    models.GetProductByCode (catalog.repo s) code models.Product_zero
      = (dbProduct, None) ∧
    catalog.Details_Price details = InexactFloat64 (models.Price dbProduct) ∧
    ∀ (i : nat) (v : models.Variant),
      models.Variants dbProduct !! i = Some v →
      ∃ v',
        catalog.Details_Variants details !! i = Some v' ∧
        (decimal.value (models.Variant_Price v) = None
         ∨ decimal.value (models.Variant_Price v) = Some 0 →
         catalog.Variant_Price v' = catalog.Details_Price details) ∧
        ((∃ z, decimal.value (models.Variant_Price v) = Some z ∧ z ≠ 0) →
         catalog.Variant_Price v'
           = InexactFloat64 (models.Variant_Price v)).
Proof.
  intros Hok. destruct (GetProductByCode_inv _ _ _ Hok) as (dbProduct & Hrepo & ->).
  exists dbProduct. split; [done|]. split; [done|].
  intros i v Hv. exists (catalog.to_api_variant dbProduct v). simpl.
  split; [by rewrite list_lookup_fmap, Hv|].
  unfold catalog.to_api_variant; simpl.
  destruct (decimal.IsZero (models.Variant_Price v)) eqn:Hz; simpl.
  - split; [done|]. intros (z & Hval & Hnz).
    apply IsZero_iff in Hz as [Hz|Hz]; congruence.
  - split; [|done]. intros Hunset.
    apply IsZero_iff in Hunset. congruence.
Qed.

(** C8: in every product that GetProductByCode returns, the variants are
    those of the store in the store's order: there are as many, and the
    variant at each index is made from the store's variant at that
    index, keeping its name and SKU. *)
Theorem GetProductByCode_variant_order (s : catalog.catalogService R)
    (code : string) (details : catalog.ProductDetails) :
  catalog.catalogService_GetProductByCode s code = (details, None) →
  ∃ dbProduct,
    models.GetProductByCode (catalog.repo s) code models.Product_zero
      = (dbProduct, None) ∧
    length (catalog.Details_Variants details)
      = length (models.Variants dbProduct) ∧
    ∀ i : nat,
      catalog.Details_Variants details !! i
        = catalog.to_api_variant dbProduct <$> models.Variants dbProduct !! i
      ∧ (catalog.Name <$> catalog.Details_Variants details !! i)
          = (models.Variant_Name <$> models.Variants dbProduct !! i)
      ∧ (catalog.SKU <$> catalog.Details_Variants details !! i)
          = (models.Variant_SKU <$> models.Variants dbProduct !! i).
Proof.
  intros Hok. destruct (GetProductByCode_inv _ _ _ Hok) as (dbProduct & Hrepo & ->).
  exists dbProduct. split; [done|]. simpl.
  split; [by rewrite length_fmap|].
  intros i. rewrite list_lookup_fmap.
  by destruct (models.Variants dbProduct !! i).
Qed.

(** C7: when the store succeeds with zero product rows, GetProducts
    returns the empty sequence and no error. *)
Theorem GetProducts_empty (s : catalog.catalogService R) :
  models.GetAllProducts (catalog.repo s) = ([], None) →
  catalog.catalogService_GetProducts s = ([], None).
Proof.
  unfold catalog.catalogService_GetProducts. by intros ->.
Qed.

(** GetProducts hands a repository failure on unchanged. *)
Lemma GetProducts_failure (s : catalog.catalogService R)
    (ps : list models.Product) (err : error) :
  models.GetAllProducts (catalog.repo s) = (ps, Some err) →
  catalog.catalogService_GetProducts s = ([], Some err).
Proof.
  unfold catalog.catalogService_GetProducts. by intros ->.
Qed.

(** On success GetProducts maps the rows in order. *)
Lemma GetProducts_success (s : catalog.catalogService R)
    (ps : list models.Product) :
  models.GetAllProducts (catalog.repo s) = (ps, None) →
  catalog.catalogService_GetProducts s
    = (catalog.to_api_product <$> ps, None).
Proof.
  unfold catalog.catalogService_GetProducts. intros ->.
  destruct ps as [|p ps]; [done|].
  replace (length (p :: ps) =? 0)%nat with false by done.
  by rewrite make_and_fill_fmap.
Qed.

End ServiceProperties.

(** ** The catalog handler *)

Section CatalogHandlerProperties.
Context {S : Type} `{!catalog.CatalogService S}.

(** C9: in every successful answer of GetCatalog the total is the length
    of the products array of the same answer. *)
Theorem GetCatalog_total (h : catalog.CatalogHandler S)
    (response : catalog.Response) :
  catalog.GetCatalog h = api.OKResponse response →
  catalog.Total response = Z.of_nat (length (catalog.Products response)).
Proof.
  unfold catalog.GetCatalog.
  destruct (catalog.GetProducts (catalog.service h)) as [products [err|]].
  - destruct (String.eqb _ _); discriminate.
  - intros [= <-]. done.
Qed.

(** GetCatalog answers a failure of the service whose text is the
    connectivity signal with 503. *)
Lemma GetCatalog_unavailable (h : catalog.CatalogHandler S)
    (ps : list catalog.Product) (err : error) :
  catalog.GetProducts (catalog.service h) = (ps, Some err) →
  Error err = "database connection failed" →
  catalog.GetCatalog h
    = api.ErrorResponse http.StatusServiceUnavailable
        (BuildErrorMessage "Database service is temporarily unavailable: " err).
Proof.
  unfold catalog.GetCatalog. intros -> ->. done.
Qed.


(** A failure that is the sentinel is answered with 404. *)
Lemma GetProductDetails_not_found (h : catalog.CatalogHandler S)
    (path : string) (details : catalog.ProductDetails) :
  strings_TrimPrefix path "/catalog/" ≠ "" →
  catalog.GetProductByCode (catalog.service h)
    (strings_TrimPrefix path "/catalog/")
    = (details, Some gorm.ErrRecordNotFound) →
  catalog.GetProductDetails h path
    = api.ErrorResponse http.StatusNotFound "Product not found".
Proof.
  intros Hcode Hsvc. unfold catalog.GetProductDetails.
  apply String.eqb_neq in Hcode. by rewrite Hcode, Hsvc.
Qed.

(** Without a code the handler answers 400 and does not ask the
    service. *)
Lemma GetProductDetails_no_code (h : catalog.CatalogHandler S) (path : string) :
  strings_TrimPrefix path "/catalog/" = "" →
  catalog.GetProductDetails h path
    = api.ErrorResponse http.StatusBadRequest "Product code is required".
Proof.
  intros Hcode. unfold catalog.GetProductDetails. by rewrite Hcode.
Qed.

End CatalogHandlerProperties.

Lemma TrimPrefix_catalog (code : string) :
  strings_TrimPrefix ("/catalog/" ++ code) "/catalog/" = code.
Proof. reflexivity. Qed.

(** ** The categories handler *)

Section CategoriesHandlerProperties.
Context {R : Type} `{!models.CategoriesRepositoryInterface R}.

(** C4: CreateCategory refuses an empty code with 400 citing the code,
    and a non-empty code with an empty name with 400 citing the name;
    the code is looked at first, so with both empty only the code is
    cited.  The repository is not touched. *)
Theorem CreateCategory_validation (h : catalog.CategoriesHandler R)
    (code name : string) :
  let call :=
    catalog.CreateCategory h
      (Some {| catalog.Request_Code := code; catalog.Request_Name := name |}) in
  (code = "" →
   call = (h, api.ErrorResponse http.StatusBadRequest "Code is required")
   ∧ api.outcome (snd call) = Some api.ValidationError)
  ∧ (code ≠ "" → name = "" →
     call = (h, api.ErrorResponse http.StatusBadRequest "Name is required")
     ∧ api.outcome (snd call) = Some api.ValidationError).
Proof.
  unfold catalog.CreateCategory; simpl. split.
  - intros ->. done.
  - intros Hcode ->. apply String.eqb_neq in Hcode. by rewrite Hcode.
Qed.

(** What CreateCategory answers once the request is valid and the
    repository has failed. *)
Lemma CreateCategory_failure (h : catalog.CategoriesHandler R)
    (req : catalog.CreateCategoryRequest) (r' : R) (c : models.Category)
    (err : error) :
  catalog.Request_Code req ≠ "" →
  catalog.Request_Name req ≠ "" →
  models.CreateCategory (catalog.categories_repo h) (category_of_request req)
    = (r', c, Some err) →
  snd (catalog.CreateCategory h (Some req)) =
    if String.eqb (Error err) "database connection failed" then
      api.ErrorResponse http.StatusServiceUnavailable
        (BuildErrorMessage "Database service is temporarily unavailable: " err)
    else if String.eqb (Error err) "UNIQUE constraint failed: categories.code"
            || String.eqb (Error err) "duplicate key value violates unique constraint"
    then api.ErrorResponse http.StatusConflict "Category with this code already exists"
    else api.ErrorResponse http.StatusInternalServerError
           (BuildErrorMessage "Unable to create category: " err).
Proof.
  intros Hcode Hname Hrepo. unfold catalog.CreateCategory.
  apply String.eqb_neq in Hcode, Hname. rewrite Hcode, Hname.
  unfold category_of_request in Hrepo. rewrite Hrepo.
  by repeat case_match.
Qed.

(** C5: for a non-empty code and name, a failure of the store on create
    is answered with 409 Conflict exactly when its text is one of the two
    known constraint-violation texts. *)
Theorem CreateCategory_conflict (h : catalog.CategoriesHandler R)
    (req : catalog.CreateCategoryRequest) (r' : R) (c : models.Category)
    (err : error) :
  catalog.Request_Code req ≠ "" →
  catalog.Request_Name req ≠ "" →
  models.CreateCategory (catalog.categories_repo h) (category_of_request req)
    = (r', c, Some err) →
  (Error err = "UNIQUE constraint failed: categories.code"
   ∨ Error err = "duplicate key value violates unique constraint")
  ↔ snd (catalog.CreateCategory h (Some req))
      = api.ErrorResponse http.StatusConflict
          "Category with this code already exists".
Proof.
  intros Hcode Hname Hrepo.
  rewrite (CreateCategory_failure _ _ _ _ _ Hcode Hname Hrepo).
  split.
  - intros [-> | ->]; done.
  - destruct (String.eqb (Error err) "database connection failed");
      [discriminate|].
    destruct (String.eqb (Error err) "UNIQUE constraint failed: categories.code")
      eqn:E1; [apply String.eqb_eq in E1; by left|].
    destruct (String.eqb (Error err)
                "duplicate key value violates unique constraint")
      eqn:E2; [apply String.eqb_eq in E2; by right|].
    discriminate.
Qed.

Lemma GetCategories_unavailable (h : catalog.CategoriesHandler R)
    (cs : list models.Category) (err : error) :
  models.GetAllCategories (catalog.categories_repo h) = (cs, Some err) →
  Error err = "database connection failed" →
  catalog.GetCategories h
    = api.ErrorResponse http.StatusServiceUnavailable
        (BuildErrorMessage "Database service is temporarily unavailable: " err).
Proof.
  unfold catalog.GetCategories. intros -> ->. done.
Qed.

End CategoriesHandlerProperties.

(** ** The connectivity signal *)

(** C6: a store failure whose text is the connectivity signal is answered
    with 503 ServiceUnavailable, and so not with 500 Internal, by the
    catalog list, by the category list and by category create. *)
Theorem connectivity_failure_unavailable (err : error) :
  Error err = "database connection failed" →
  (∀ (P : Type) (HP : models.ProductsRepositoryInterface P)
     (s : catalog.catalogService P) (ps : list models.Product),
     models.GetAllProducts (catalog.repo s) = (ps, Some err) →
     let reply := catalog.GetCatalog {| catalog.service := s |} in
     reply = api.ErrorResponse http.StatusServiceUnavailable
               (BuildErrorMessage "Database service is temporarily unavailable: " err)
     ∧ api.outcome reply = Some api.ServiceUnavailable
     ∧ api.outcome reply ≠ Some api.Internal)
  ∧ (∀ (C : Type) (HC : models.CategoriesRepositoryInterface C)
       (h : catalog.CategoriesHandler C) (cs : list models.Category),
       models.GetAllCategories (catalog.categories_repo h) = (cs, Some err) →
       let reply := catalog.GetCategories h in
       reply = api.ErrorResponse http.StatusServiceUnavailable
                 (BuildErrorMessage "Database service is temporarily unavailable: " err)
       ∧ api.outcome reply = Some api.ServiceUnavailable
       ∧ api.outcome reply ≠ Some api.Internal)
  ∧ (∀ (C : Type) (HC : models.CategoriesRepositoryInterface C)
       (h : catalog.CategoriesHandler C) (req : catalog.CreateCategoryRequest)
       (r' : C) (c : models.Category),
       catalog.Request_Code req ≠ "" →
       catalog.Request_Name req ≠ "" →
       models.CreateCategory (catalog.categories_repo h) (category_of_request req)
         = (r', c, Some err) →
       let reply := snd (catalog.CreateCategory h (Some req)) in
       reply = api.ErrorResponse http.StatusServiceUnavailable
                 (BuildErrorMessage "Database service is temporarily unavailable: " err)
       ∧ api.outcome reply = Some api.ServiceUnavailable
       ∧ api.outcome reply ≠ Some api.Internal).
Proof.
  intros Htext. split; [|split].
  - intros P ? s ps Hrepo reply. subst reply.
    rewrite (GetCatalog_unavailable {| catalog.service := s |} [] err);
      [done| |done].
    simpl. by apply GetProducts_failure with ps.
  - intros C ? h cs Hrepo reply. subst reply.
    by rewrite (GetCategories_unavailable h cs err).
  - intros C ? h req r' c Hcode Hname Hrepo reply. subst reply.
    rewrite (CreateCategory_failure _ _ _ _ _ Hcode Hname Hrepo), Htext.
    done.
Qed.

(** ** The gorm-backed repository *)

Lemma filter_matches_iff (category : string) (priceLt : option float64)
    (p : models.Product) :
  filter_matches category priceLt p = true ↔
    (category = "" ∨ models.Category_Name (models.Category_ p) = category)
    ∧ (∀ bound, priceLt = Some bound →
         sql_lt (sql_of_numeric (models.Price p)) (sql_of_float64 bound) = true).
Proof.
  unfold filter_matches.
  rewrite andb_true_iff, orb_true_iff, !String.eqb_eq.
  destruct priceLt as [bound|]; split; intros [Hc Hp]; split; try done.
  - by intros ? [= <-].
  - by apply Hp.
Qed.

Lemma run_ordered_page {Row} (q : gorm_db.Stmt Row) (le : Row → Row → bool)
    (offset limit : Z) :
  gorm_db.run (gorm_db.Limit limit (gorm_db.Offset offset (gorm_db.Order le q)))
  = gorm_db.window offset (Some limit)
      (sort_by le (List.filter (gorm_db.selected q) (gorm_db.table q))).
Proof. reflexivity. Qed.

(** The statement that both filtered queries build selects the rows that
    match the filter. *)
Lemma filtered_statement_rows (rows : list models.Product) (category : string)
    (priceLt : option float64) :
  let query := gorm_db.Model rows in
  let query :=
    if String.eqb category "" then query
    else gorm_db.Where (models.category_name_is category) query in
  let query :=
    match priceLt with
    | Some bound => gorm_db.Where (models.price_lt bound) query
    | None => query
    end in
  List.filter (gorm_db.selected query) (gorm_db.table query)
  = List.filter (filter_matches category priceLt) rows.
Proof.
  destruct (String.eqb category "") eqn:Hc, priceLt as [bound|]; simpl;
    apply List.filter_ext; intros p;
    unfold gorm_db.selected, filter_matches, models.category_name_is,
      models.price_lt; simpl; rewrite ?Hc; simpl;
    by rewrite ?andb_true_r.
Qed.

Lemma paginated_query_filter (d : models.DB) (offset limit : Z)
    (category : string) (priceLt : option float64) :
  models.fault d = None →
  models.ProductsRepository_GetProductsPaginatedWithFilters
    {| models.db := d |} offset limit category priceLt
  = (gorm_db.window offset (Some limit)
       (sort_by models.code_asc
          (List.filter (filter_matches category priceLt) (models.products d))),
     None).
Proof.
  intros Hfault.
  unfold models.ProductsRepository_GetProductsPaginatedWithFilters; simpl.
  rewrite Hfault. unfold gorm_db.Find.
  rewrite run_ordered_page.
  by rewrite (filtered_statement_rows (models.products d) category priceLt).
Qed.

Lemma count_query_filter (d : models.DB) (category : string)
    (priceLt : option float64) :
  models.fault d = None →
  models.ProductsRepository_GetProductsCountWithFilters
    {| models.db := d |} category priceLt
  = (Z.of_nat (length (List.filter (filter_matches category priceLt)
                         (models.products d))), None).
Proof.
  intros Hfault.
  unfold models.ProductsRepository_GetProductsCountWithFilters; simpl.
  rewrite Hfault. unfold gorm_db.Count.
  by rewrite (filtered_statement_rows (models.products d) category priceLt).
Qed.

(** C2: for every offset, limit and filter, the page and the total of
    GetProductsPaginatedWithFilters are taken from the rows that match the
    filter: the page is a window of them in code order and the total is
    their number.  A row matches when its category name is the category
    given, if one is given, and its price is strictly below the bound, if
    one is given; a price equal to the bound does not match. *)
Theorem GetProductsPaginatedWithFilters_filtered (d : models.DB)
    (offset limit : Z) (category : string) (priceLt : option float64) :
  models.fault d = None →
  let s := {| catalog.repo := {| models.db := d |} |} in
  let matching :=
    List.filter (filter_matches category priceLt) (models.products d) in
  let page := gorm_db.window offset (Some limit) (sort_by models.code_asc matching) in
  catalog.catalogService_GetProductsPaginatedWithFilters s offset limit
    category priceLt
    = (catalog.to_api_product <$> page, Z.of_nat (length matching), None)
  ∧ (∀ p, p ∈ page →
       p ∈ models.products d ∧ filter_matches category priceLt p = true)
  ∧ (∀ p, filter_matches category priceLt p = true ↔
       (category = "" ∨ models.Category_Name (models.Category_ p) = category)
       ∧ (∀ bound, priceLt = Some bound →
            sql_lt (sql_of_numeric (models.Price p)) (sql_of_float64 bound)
              = true))
  ∧ (∀ p bound, priceLt = Some bound →
       sql_of_numeric (models.Price p) = sql_of_float64 bound →
       filter_matches category priceLt p = false).
Proof.
  intros Hfault s matching page. split; [|split; [|split]].
  - unfold catalog.catalogService_GetProductsPaginatedWithFilters; simpl.
    rewrite (paginated_query_filter d offset limit category priceLt Hfault).
    rewrite (count_query_filter d category priceLt Hfault).
    by rewrite make_and_fill_fmap.
  - intros p Hp. apply window_elem_of in Hp.
    rewrite (sort_by_Permutation models.code_asc matching) in Hp.
    apply list_elem_of_In, filter_In in Hp as [Hin Hm].
    split; [by apply list_elem_of_In|done].
  - intros p. apply filter_matches_iff.
  - intros p bound -> Heq. unfold filter_matches.
    by rewrite Heq, sql_lt_irrefl, andb_false_r.
Qed.

(** An empty products table is read as no rows and no error. *)
Lemma GetAllProducts_no_rows (d : models.DB) :
  models.fault d = None →
  models.products d = [] →
  models.ProductsRepository_GetAllProducts {| models.db := d |} = ([], None).
Proof.
  intros Hfault Hrows.
  unfold models.ProductsRepository_GetAllProducts, gorm_db.Find; simpl.
  by rewrite Hfault, Hrows.
Qed.

(** A code that no row carries is not found. *)
Lemma GetProductByCode_no_row (d : models.DB) (code : string)
    (dest : models.Product) :
  models.fault d = None →
  (∀ p, p ∈ models.products d → models.Code p ≠ code) →
  models.ProductsRepository_GetProductByCode {| models.db := d |} code dest
    = (dest, Some gorm.ErrRecordNotFound).
Proof.
  intros Hfault Hnone.
  unfold models.ProductsRepository_GetProductByCode; simpl.
  rewrite Hfault. apply First_not_found.
  intros p Hp. rewrite selected_Where; simpl.
  apply String.eqb_neq, Hnone. by apply list_elem_of_In.
Qed.

(** What the route hands on: the code of a routed path is what the handler
    cuts from the path, and it is not empty. *)
Lemma routed_code_inv (path code : string) :
  routed_code path = Some code →
  strings_TrimPrefix path "/catalog/" = code ∧ code ≠ "".
Proof.
  unfold routed_code, strings_TrimPrefix.
  destruct (strings_TrimPrefix_aux path "/catalog/") as [rest|]; [|done].
  destruct (String.eqb rest "") eqn:Hrest; [done|].
  intros [= <-]. split; [done|]. by apply String.eqb_neq.
Qed.

Lemma routed_code_catalog (code : string) :
  code ≠ "" → routed_code ("/catalog/" ++ code) = Some code.
Proof.
  intros Hcode. unfold routed_code.
  change (strings_TrimPrefix_aux ("/catalog/" ++ code) "/catalog/") with (Some code).
  cbv beta iota. apply String.eqb_neq in Hcode. by rewrite Hcode.
Qed.

(** C3: for every code string, when the store answers and no product
    carries exactly the code, GetProductByCode fails with gorm's
    record-not-found error, and the product-details endpoint answers every
    request that the route GET /catalog/{code} hands to it for this code
    with 404 NotFound.  The route takes the path "/catalog/" followed by the
    code for every code that is not empty; the empty code is no path
    segment, so no request for it reaches the endpoint. *)
Theorem unknown_code_not_found (d : models.DB) (code : string) :
  models.fault d = None →
  (∀ p, p ∈ models.products d → models.Code p ≠ code) →
  let s := {| catalog.repo := {| models.db := d |} |} in
  catalog.catalogService_GetProductByCode s code
    = (catalog.ProductDetails_zero, Some gorm.ErrRecordNotFound)
  ∧ (∀ path, routed_code path = Some code →
       catalog.GetProductDetails {| catalog.service := s |} path
         = api.ErrorResponse http.StatusNotFound "Product not found"
       ∧ api.outcome (catalog.GetProductDetails {| catalog.service := s |} path)
         = Some api.NotFound)
  ∧ (code ≠ "" → routed_code ("/catalog/" ++ code) = Some code)
  ∧ routed_code ("/catalog/" ++ "") = None.
Proof.
  intros Hfault Hnone s.
  assert (Hsvc : catalog.catalogService_GetProductByCode s code
            = (catalog.ProductDetails_zero, Some gorm.ErrRecordNotFound)).
  { apply GetProductByCode_failure with models.Product_zero.
    by apply GetProductByCode_no_row. }
  split; [done|]. split; [|split; [apply routed_code_catalog|done]].
  intros path Hroute. apply routed_code_inv in Hroute as [Hcut Hcode].
  assert (Hreply : catalog.GetProductDetails {| catalog.service := s |} path
            = api.ErrorResponse http.StatusNotFound "Product not found").
  { apply GetProductDetails_not_found with catalog.ProductDetails_zero;
      by rewrite Hcut. }
  by rewrite Hreply.
Qed.

(** ** Further properties of the service *)

Section MoreServiceProperties.
Context {R : Type} `{!models.ProductsRepositoryInterface R}.

(** X1: on success GetProducts returns one presentation product per store
    row, in the order of the rows, each with the code, the converted price
    and the category name of its row. *)
Theorem GetProducts_maps_rows (s : catalog.catalogService R)
    (rows : list models.Product) :
  models.GetAllProducts (catalog.repo s) = (rows, None) →
  ∃ products,
    catalog.catalogService_GetProducts s = (products, None)
    ∧ length products = length rows
    ∧ ∀ (i : nat) (p : models.Product),
        rows !! i = Some p →
        products !! i
          = Some {| catalog.Code := models.Code p;
                    catalog.Price := InexactFloat64 (models.Price p);
                    catalog.Category_ :=
                      models.Category_Name (models.Category_ p) |}.
Proof.
  intros Hrepo. exists (catalog.to_api_product <$> rows).
  split; [by apply GetProducts_success|].
  split; [by rewrite length_fmap|].
  intros i p Hp. by rewrite list_lookup_fmap, Hp.
Qed.

(** X2: GetProductsPaginated returns no products, a zero total and the
    error when the page query fails, and also when the page query succeeds
    and the count query fails: the page that was read is dropped. *)
Theorem GetProductsPaginated_failure (s : catalog.catalogService R)
    (offset limit : Z) (rows : list models.Product) (err : error) :
  (models.GetProductsPaginated (catalog.repo s) offset limit = (rows, Some err) →
   catalog.catalogService_GetProductsPaginated s offset limit = ([], 0, Some err))
  ∧ (∀ n : Z,
       models.GetProductsPaginated (catalog.repo s) offset limit = (rows, None) →
       models.GetProductsCount (catalog.repo s) = (n, Some err) →
       catalog.catalogService_GetProductsPaginated s offset limit
         = ([], 0, Some err)).
Proof.
  unfold catalog.catalogService_GetProductsPaginated. split.
  - by intros ->.
  - by intros n -> ->.
Qed.

(** X3: GetProductsPaginatedWithFilters returns no products, a zero total
    and the error when the page query fails, and also when the page query
    succeeds and the count query fails. *)
Theorem GetProductsPaginatedWithFilters_failure (s : catalog.catalogService R)
    (offset limit : Z) (category : string) (priceLt : option float64)
    (rows : list models.Product) (err : error) :
  (models.GetProductsPaginatedWithFilters (catalog.repo s) offset limit
     category priceLt = (rows, Some err) →
   catalog.catalogService_GetProductsPaginatedWithFilters s offset limit
     category priceLt = ([], 0, Some err))
  ∧ (∀ n : Z,
       models.GetProductsPaginatedWithFilters (catalog.repo s) offset limit
         category priceLt = (rows, None) →
       models.GetProductsCountWithFilters (catalog.repo s) category priceLt
         = (n, Some err) →
       catalog.catalogService_GetProductsPaginatedWithFilters s offset limit
         category priceLt = ([], 0, Some err)).
Proof.
  unfold catalog.catalogService_GetProductsPaginatedWithFilters. split.
  - by intros ->.
  - by intros n -> ->.
Qed.

(** X4: when both queries succeed GetProductsPaginated maps the rows of the
    page in order and returns the count of the repository as the total,
    whatever the length of the page. *)
Theorem GetProductsPaginated_success (s : catalog.catalogService R)
    (offset limit : Z) (rows : list models.Product) (n : Z) :
  models.GetProductsPaginated (catalog.repo s) offset limit = (rows, None) →
  models.GetProductsCount (catalog.repo s) = (n, None) →
  ∃ products,
    catalog.catalogService_GetProductsPaginated s offset limit
      = (products, n, None)
    ∧ length products = length rows
    ∧ ∀ (i : nat) (p : models.Product),
        rows !! i = Some p →
        products !! i
          = Some {| catalog.Code := models.Code p;
                    catalog.Price := InexactFloat64 (models.Price p);
                    catalog.Category_ :=
                      models.Category_Name (models.Category_ p) |}.
Proof.
  intros Hpage Hcount. exists (catalog.to_api_product <$> rows).
  unfold catalog.catalogService_GetProductsPaginated.
  rewrite Hpage, Hcount, make_and_fill_fmap.
  split; [done|]. split; [by rewrite length_fmap|].
  intros i p Hp. by rewrite list_lookup_fmap, Hp.
Qed.

End MoreServiceProperties.

(** ** Further properties of the gorm-backed repository *)

(** A condition that every row meets keeps every row. *)
Lemma filter_all {A} (f : A → bool) (l : list A) :
  (∀ x, f x = true) → List.filter f l = l.
Proof.
  intros Hf. induction l as [|x l IH]; simpl; [done|].
  rewrite Hf. by f_equal.
Qed.

Lemma paginated_query_rows (d : models.DB) (offset limit : Z) :
  models.fault d = None →
  models.ProductsRepository_GetProductsPaginated {| models.db := d |} offset limit
  = (gorm_db.window offset (Some limit) (models.products d), None).
Proof.
  intros Hfault.
  unfold models.ProductsRepository_GetProductsPaginated, gorm_db.Find; simpl.
  rewrite Hfault. unfold gorm_db.run, gorm_db.paged, gorm_db.ordered; simpl.
  by rewrite filter_all.
Qed.

Lemma count_query_rows (d : models.DB) :
  models.fault d = None →
  models.ProductsRepository_GetProductsCount {| models.db := d |}
  = (Z.of_nat (length (models.products d)), None).
Proof.
  intros Hfault.
  unfold models.ProductsRepository_GetProductsCount, gorm_db.Count; simpl.
  rewrite Hfault.
  by rewrite filter_all.
Qed.

(** X5: over a store that answers, the total of GetProductsPaginated is the
    number of product rows of the table for every offset and limit, whatever
    the page holds, and every product of the page is made from a row of the
    table. *)
Theorem GetProductsPaginated_store (d : models.DB) (offset limit : Z) :
  models.fault d = None →
  ∃ rows,
    catalog.catalogService_GetProductsPaginated
      {| catalog.repo := {| models.db := d |} |} offset limit
    = (catalog.to_api_product <$> rows,
       Z.of_nat (length (models.products d)), None)
    ∧ ∀ p, p ∈ rows → p ∈ models.products d.
Proof.
  intros Hfault.
  exists (gorm_db.window offset (Some limit) (models.products d)).
  split; [|intros p; apply window_elem_of].
  unfold catalog.catalogService_GetProductsPaginated; simpl.
  rewrite (paginated_query_rows d offset limit Hfault).
  rewrite (count_query_rows d Hfault).
  by rewrite make_and_fill_fmap.
Qed.

(** X6: with a positive limit neither paginated operation returns more
    products than the limit. *)
Theorem paginated_page_size (d : models.DB) (offset limit : Z)
    (category : string) (priceLt : option float64) :
  models.fault d = None →
  0 < limit →
  let s := {| catalog.repo := {| models.db := d |} |} in
  Z.of_nat (length (catalog.catalogService_GetProductsPaginated s offset limit).1.1)
    ≤ limit
  ∧ Z.of_nat (length (catalog.catalogService_GetProductsPaginatedWithFilters s
                        offset limit category priceLt).1.1)
    ≤ limit.
Proof.
  intros Hfault Hlimit s. subst s.
  unfold catalog.catalogService_GetProductsPaginated,
    catalog.catalogService_GetProductsPaginatedWithFilters; simpl.
  rewrite (paginated_query_rows d offset limit Hfault).
  rewrite (count_query_rows d Hfault).
  rewrite (paginated_query_filter d offset limit category priceLt Hfault).
  rewrite (count_query_filter d category priceLt Hfault).
  rewrite !make_and_fill_fmap. simpl. rewrite !length_fmap.
  split; (etransitivity; [apply inj_le, window_length; lia|lia]).
Qed.

(** X7: the page of GetProductsPaginatedWithFilters is in ascending order of
    code: each product's code is at or below the code of the next one,
    provided the store's text order compares any two texts. *)
Theorem filtered_page_ascending (d : models.DB) (offset limit : Z)
    (category : string) (priceLt : option float64) :
  (∀ a b, sql_text_le a b = true ∨ sql_text_le b a = true) →
  Sorted (λ x y, sql_text_le (catalog.Code x) (catalog.Code y) = true)
    (catalog.catalogService_GetProductsPaginatedWithFilters
       {| catalog.repo := {| models.db := d |} |} offset limit category priceLt).1.1.
Proof.
  intros Htotal.
  unfold catalog.catalogService_GetProductsPaginatedWithFilters; simpl.
  destruct (models.fault d) as [e|] eqn:Hfault.
  - unfold models.ProductsRepository_GetProductsPaginatedWithFilters,
      gorm_db.Find; simpl.
    rewrite Hfault. constructor.
  - rewrite (paginated_query_filter d offset limit category priceLt Hfault).
    rewrite (count_query_filter d category priceLt Hfault).
    rewrite make_and_fill_fmap. cbn [fst].
    apply Sorted_map with (R1 := λ p q, models.code_asc p q = true); [done|].
    apply window_Sorted, sort_by_Sorted.
    intros p q. apply Htotal.
Qed.

(** X8: consecutive pages of GetProductsPaginatedWithFilters join without a
    gap or an overlap: the page of [n] products from an offset followed by
    the page of [m] products from [offset + n] is the page of [n + m]
    products from the offset. *)
Theorem filtered_pages_join (d : models.DB) (offset n m : Z)
    (category : string) (priceLt : option float64) :
  models.fault d = None →
  0 ≤ offset → 0 < n → 0 < m →
  let page off lim :=
    (catalog.catalogService_GetProductsPaginatedWithFilters
       {| catalog.repo := {| models.db := d |} |} off lim category priceLt).1.1 in
  (page offset n ++ page (offset + n) m)%list = page offset (n + m).
Proof.
  intros Hfault Hoff Hn Hm page. subst page.
  unfold catalog.catalogService_GetProductsPaginatedWithFilters; simpl.
  rewrite !(paginated_query_filter d _ _ category priceLt Hfault).
  rewrite (count_query_filter d category priceLt Hfault).
  rewrite !make_and_fill_fmap. cbn [fst].
  rewrite <- fmap_app. f_equal. apply window_app; lia.
Qed.

(** X9: a filter never raises the total: the count with a filter is at most
    the count of all products, and with no category and no bound the two
    count queries give the same answer. *)
Theorem filtered_count_le (d : models.DB) (category : string)
    (priceLt : option float64) :
  let r := {| models.db := d |} in
  (models.ProductsRepository_GetProductsCountWithFilters r category priceLt).1
    ≤ (models.ProductsRepository_GetProductsCount r).1
  ∧ models.ProductsRepository_GetProductsCountWithFilters r "" None
    = models.ProductsRepository_GetProductsCount r.
Proof.
  intros r. subst r.
  unfold models.ProductsRepository_GetProductsCountWithFilters,
    models.ProductsRepository_GetProductsCount, gorm_db.Count; simpl.
  destruct (models.fault d) as [e|]; simpl; [split; [lia|done]|].
  split; [|done].
  rewrite (filtered_statement_rows (models.products d) category priceLt).
  rewrite (filter_all (gorm_db.selected (gorm_db.Model (models.products d))))
    by (intros; reflexivity).
  apply inj_le, filter_length_le.
Qed.

(** [First] with a destination whose primary key is zero, on a statement
    that selects some row, returns a selected row of least primary key. *)
Lemma First_found {Row} (pk : Row → Z) (q : gorm_db.Stmt Row) (dest r : Row) :
  pk dest = 0 →
  In r (List.filter (gorm_db.selected q) (gorm_db.table q)) →
  ∃ p,
    gorm_db.First None pk q dest = (p, None)
    ∧ In p (List.filter (gorm_db.selected q) (gorm_db.table q))
    ∧ ∀ x, In x (List.filter (gorm_db.selected q) (gorm_db.table q)) →
           pk p ≤ pk x.
Proof.
  intros Hzero Hr. unfold gorm_db.First. rewrite Hzero. simpl.
  set (matching := List.filter _ _) in *.
  destruct (sort_by _ matching) as [|p rest] eqn:Hsort.
  - exfalso.
    pose proof (sort_by_Permutation (λ a b, pk a <=? pk b) matching) as Hperm.
    rewrite Hsort in Hperm. apply Permutation_nil in Hperm.
    by rewrite Hperm in Hr.
  - apply sort_by_head_least in Hsort as [Hp Hleast]. by exists p.
Qed.

(** The rows that the lookup by code selects. *)
Lemma by_code_rows (d : models.DB) (code : string) (q : models.Product) :
  In q (List.filter
          (gorm_db.selected
             (gorm_db.Where (λ p, String.eqb (models.Code p) code)
                (gorm_db.Model (models.products d))))
          (models.products d))
  ↔ q ∈ models.products d ∧ models.Code q = code.
Proof.
  rewrite filter_In, list_elem_of_In.
  unfold gorm_db.selected; simpl. by rewrite andb_true_r, String.eqb_eq.
Qed.

(** X10: over a store that answers, GetProductByCode of the repository,
    given a destination whose ID is zero as the service passes it, finds a
    product whenever some row carries the code: the product returned is a
    row of the table with exactly that code, the one of least ID among
    them. *)
Theorem GetProductByCode_finds_row (d : models.DB) (code : string)
    (dest row : models.Product) :
  models.fault d = None →
  models.ID dest = 0 →
  row ∈ models.products d →
  models.Code row = code →
  ∃ p,
    models.ProductsRepository_GetProductByCode {| models.db := d |} code dest
      = (p, None)
    ∧ p ∈ models.products d
    ∧ models.Code p = code
    ∧ ∀ q, q ∈ models.products d → models.Code q = code →
           models.ID p ≤ models.ID q.
Proof.
  intros Hfault Hzero Hrow Hcode.
  unfold models.ProductsRepository_GetProductByCode; simpl. rewrite Hfault.
  destruct (First_found models.ID
              (gorm_db.Where (λ p, String.eqb (models.Code p) code)
                 (gorm_db.Model (models.products d))) dest row Hzero)
    as (p & Hfirst & Hp & Hleast).
  { by apply by_code_rows. }
  apply by_code_rows in Hp as [Hp Hpc].
  exists p. repeat split; try done.
  intros q Hq Hqc. apply Hleast. by apply by_code_rows.
Qed.

(** A destination that already has an ID narrows the lookup to the row
    with this ID: when no row has both the code and the ID, no record is
    found and the destination stays as it was. *)
Lemma GetProductByCode_keyed_destination (d : models.DB) (code : string)
    (dest : models.Product) :
  models.fault d = None →
  models.ID dest ≠ 0 →
  (∀ q, q ∈ models.products d → models.Code q = code →
        models.ID q ≠ models.ID dest) →
  models.ProductsRepository_GetProductByCode {| models.db := d |} code dest
    = (dest, Some gorm.ErrRecordNotFound).
Proof.
  intros Hfault Hkey Hnone.
  unfold models.ProductsRepository_GetProductByCode, gorm_db.First; simpl.
  rewrite Hfault. apply Z.eqb_neq in Hkey. rewrite Hkey.
  rewrite filter_nil_not_In; [done|].
  intros q Hq. rewrite !selected_Where; simpl.
  destruct (String.eqb (models.Code q) code) eqn:Hcode; [|done].
  apply String.eqb_eq in Hcode. simpl.
  apply Z.eqb_neq, Hnone; [by apply list_elem_of_In|done].
Qed.

(** X11: for a code that is not empty and that some row of an answering
    store carries, the product-details endpoint answers 200 with the details
    of a row with exactly that code: its code, converted price and category
    name, and one variant per variant of the row. *)
Theorem GetProductDetails_found (d : models.DB) (code : string)
    (row : models.Product) :
  models.fault d = None →
  row ∈ models.products d →
  models.Code row = code →
  code ≠ "" →
  ∃ p,
    p ∈ models.products d
    ∧ models.Code p = code
    ∧ catalog.GetProductDetails
        {| catalog.service := {| catalog.repo := {| models.db := d |} |} |}
        ("/catalog/" ++ code)
      = api.OKResponse
          {| catalog.Details_Code := code;
             catalog.Details_Price := InexactFloat64 (models.Price p);
             catalog.Details_Category := models.Category_Name (models.Category_ p);
             catalog.Details_Variants :=
               catalog.to_api_variant p <$> models.Variants p |}.
Proof.
  intros Hfault Hrow Hcode Hne.
  destruct (First_found models.ID
              (gorm_db.Where (λ p, String.eqb (models.Code p) code)
                 (gorm_db.Model (models.products d))) models.Product_zero row
              eq_refl)
    as (p & Hfirst & Hp & _).
  { by apply by_code_rows. }
  apply by_code_rows in Hp as [Hp Hpc].
  exists p. split; [done|]. split; [done|].
  unfold catalog.GetProductDetails. rewrite TrimPrefix_catalog.
  apply String.eqb_neq in Hne. rewrite Hne. simpl.
  unfold catalog.catalogService_GetProductByCode; simpl.
  unfold models.ProductsRepository_GetProductByCode; simpl.
  rewrite Hfault, Hfirst, make_and_fill_fmap. by rewrite Hpc.
Qed.

(** ** Further properties of the handlers *)

(** Finds a status in the list of statuses of an endpoint. *)
Ltac status_in_list :=
  simpl; repeat first [apply list_elem_of_here | apply list_elem_of_further].

Section MoreCatalogHandlerProperties.
Context {S : Type} `{!catalog.CatalogService S}.

(** X12: when the service fails for a code that is not empty,
    GetProductDetails answers 404 exactly when the error is gorm's
    record-not-found value; otherwise 503 exactly when the text of the error
    is the connectivity signal, and 500 in every other case. *)
Theorem GetProductDetails_failure_status (h : catalog.CatalogHandler S)
    (path : string) (details : catalog.ProductDetails) (err : error) :
  strings_TrimPrefix path "/catalog/" ≠ "" →
  catalog.GetProductByCode (catalog.service h)
    (strings_TrimPrefix path "/catalog/") = (details, Some err) →
  let status := api.status_code (catalog.GetProductDetails h path) in
  (status = http.StatusNotFound ↔ err = gorm.ErrRecordNotFound)
  ∧ (status = http.StatusServiceUnavailable ↔
       err ≠ gorm.ErrRecordNotFound ∧ Error err = "database connection failed")
  ∧ (status = http.StatusInternalServerError ↔
       err ≠ gorm.ErrRecordNotFound ∧ Error err ≠ "database connection failed").
Proof.
  intros Hcode Hsvc status. subst status.
  unfold catalog.GetProductDetails.
  apply String.eqb_neq in Hcode. rewrite Hcode, Hsvc.
  destruct err as [|text]; simpl.
  - repeat split; try done; intros [? _]; done.
  - destruct (String.eqb text "database connection failed") eqn:Htext; simpl.
    + apply String.eqb_eq in Htext.
      repeat split; try done. intros [_ ?]; done.
    + apply String.eqb_neq in Htext.
      repeat split; try done. intros [_ ?]; done.
Qed.

(** When the service succeeds for a code that is not empty,
    GetProductDetails answers 200 with the details of the service,
    unchanged. *)
Theorem GetProductDetails_success (h : catalog.CatalogHandler S)
    (path : string) (details : catalog.ProductDetails) :
  strings_TrimPrefix path "/catalog/" ≠ "" →
  catalog.GetProductByCode (catalog.service h)
    (strings_TrimPrefix path "/catalog/") = (details, None) →
  catalog.GetProductDetails h path = api.OKResponse details
  ∧ api.status_code (catalog.GetProductDetails h path) = http.StatusOK.
Proof.
  intros Hcode Hsvc. unfold catalog.GetProductDetails.
  apply String.eqb_neq in Hcode. by rewrite Hcode, Hsvc.
Qed.

(** X13: when the service fails, GetCatalog answers 503 exactly when the
    text of the error is the connectivity signal and 500 otherwise, with a
    message built from the error. *)
Theorem GetCatalog_failure_status (h : catalog.CatalogHandler S)
    (ps : list catalog.Product) (err : error) :
  catalog.GetProducts (catalog.service h) = (ps, Some err) →
  (Error err = "database connection failed" →
   catalog.GetCatalog h
   = api.ErrorResponse http.StatusServiceUnavailable
       (BuildErrorMessage "Database service is temporarily unavailable: " err))
  ∧ (Error err ≠ "database connection failed" →
     catalog.GetCatalog h
     = api.ErrorResponse http.StatusInternalServerError
         (BuildErrorMessage "Unable to retrieve products at this time: " err))
  ∧ (api.status_code (catalog.GetCatalog h) = http.StatusServiceUnavailable
     ↔ Error err = "database connection failed").
Proof.
  intros Hsvc. unfold catalog.GetCatalog. rewrite Hsvc.
  destruct (String.eqb (Error err) "database connection failed") eqn:Htext.
  - apply String.eqb_eq in Htext. by repeat split.
  - apply String.eqb_neq in Htext. by repeat split.
Qed.

(** X14: the statuses of the catalog endpoints are closed sets: GetCatalog
    answers 200, 503 or 500, and GetProductDetails 200, 400, 404, 503 or
    500, whatever the service does. *)
Theorem catalog_handler_statuses (h : catalog.CatalogHandler S) (path : string) :
  api.status_code (catalog.GetCatalog h) ∈ [200; 503; 500]
  ∧ api.status_code (catalog.GetProductDetails h path) ∈ [200; 400; 404; 503; 500].
Proof.
  unfold catalog.GetCatalog, catalog.GetProductDetails. split.
  - destruct (catalog.GetProducts _) as [ps [err|]]; [|status_in_list].
    destruct (String.eqb _ _); status_in_list.
  - destruct (String.eqb _ ""); [status_in_list|].
    destruct (catalog.GetProductByCode _ _) as [details [err|]]; [|status_in_list].
    destruct (is_ErrRecordNotFound err); [status_in_list|].
    destruct (String.eqb _ _); status_in_list.
Qed.

End MoreCatalogHandlerProperties.

Section MoreCategoriesHandlerProperties.
Context {R : Type} `{!models.CategoriesRepositoryInterface R}.

(** X15: when the repository fails, GetCategories answers 503 if the text of
    the error is the connectivity signal and 500 otherwise, with a message
    built from the error; it answers 503 in no other case. *)
Theorem GetCategories_failure_status (h : catalog.CategoriesHandler R)
    (cs : list models.Category) (err : error) :
  models.GetAllCategories (catalog.categories_repo h) = (cs, Some err) →
  (Error err = "database connection failed" →
   catalog.GetCategories h
   = api.ErrorResponse http.StatusServiceUnavailable
       (BuildErrorMessage "Database service is temporarily unavailable: " err))
  ∧ (Error err ≠ "database connection failed" →
     catalog.GetCategories h
     = api.ErrorResponse http.StatusInternalServerError
         (BuildErrorMessage "Unable to retrieve categories at this time: " err))
  ∧ (api.status_code (catalog.GetCategories h) = http.StatusServiceUnavailable
     ↔ Error err = "database connection failed").
Proof.
  intros Hrepo. unfold catalog.GetCategories. rewrite Hrepo.
  destruct (String.eqb (Error err) "database connection failed") eqn:Htext.
  - apply String.eqb_eq in Htext. by repeat split.
  - apply String.eqb_neq in Htext. by repeat split.
Qed.

(** X16: when the repository succeeds, GetCategories answers 200 with one
    category per store category, in the store's order, each with the code
    and the name of its row and without its ID; no categories give the empty
    list. *)
Theorem GetCategories_success (h : catalog.CategoriesHandler R)
    (cs : list models.Category) :
  models.GetAllCategories (catalog.categories_repo h) = (cs, None) →
  ∃ categories,
    catalog.GetCategories h = api.OKResponse categories
    ∧ length categories = length cs
    ∧ (cs = [] → categories = [])
    ∧ ∀ (i : nat) (c : models.Category),
        cs !! i = Some c →
        categories !! i
          = Some {| catalog.Category_Code := models.Category_Code c;
                    catalog.Category_Name := models.Category_Name c |}.
Proof.
  intros Hrepo. exists (catalog.to_api_category <$> cs).
  unfold catalog.GetCategories. rewrite Hrepo, make_and_fill_fmap.
  split; [done|]. split; [by rewrite length_fmap|].
  split; [by intros ->|].
  intros i c Hc. by rewrite list_lookup_fmap, Hc.
Qed.

(** X17: for a request with a code and a name, a failure of the repository
    on create is answered with 500 and a message built from the error
    exactly when the text of the error is none of the three known texts. *)
Theorem CreateCategory_internal (h : catalog.CategoriesHandler R)
    (req : catalog.CreateCategoryRequest) (r' : R) (c : models.Category)
    (err : error) :
  catalog.Request_Code req ≠ "" →
  catalog.Request_Name req ≠ "" →
  models.CreateCategory (catalog.categories_repo h) (category_of_request req)
    = (r', c, Some err) →
  (Error err ≠ "database connection failed"
   ∧ Error err ≠ "UNIQUE constraint failed: categories.code"
   ∧ Error err ≠ "duplicate key value violates unique constraint")
  ↔ (catalog.CreateCategory h (Some req)).2
     = api.ErrorResponse http.StatusInternalServerError
         (BuildErrorMessage "Unable to create category: " err).
Proof.
  intros Hcode Hname Hrepo.
  rewrite (CreateCategory_failure _ _ _ _ _ Hcode Hname Hrepo).
  destruct (String.eqb (Error err) "database connection failed") eqn:E0.
  { apply String.eqb_eq in E0. split; [intros [? _]; done|discriminate]. }
  destruct (String.eqb (Error err) "UNIQUE constraint failed: categories.code")
    eqn:E1; simpl.
  { apply String.eqb_eq in E1. split; [intros (_ & ? & _); done|discriminate]. }
  destruct (String.eqb (Error err)
              "duplicate key value violates unique constraint") eqn:E2.
  { apply String.eqb_eq in E2. split; [intros (_ & _ & ?); done|discriminate]. }
  apply String.eqb_neq in E0, E1, E2. done.
Qed.

(** X18: for a request with a code and a name, when the repository creates
    the category CreateCategory answers 200 with the code and the name that
    the repository left in the category, and keeps the repository as the
    call left it. *)
Theorem CreateCategory_success (h : catalog.CategoriesHandler R)
    (req : catalog.CreateCategoryRequest) (r' : R) (c : models.Category) :
  catalog.Request_Code req ≠ "" →
  catalog.Request_Name req ≠ "" →
  models.CreateCategory (catalog.categories_repo h) (category_of_request req)
    = (r', c, None) →
  catalog.CreateCategory h (Some req)
  = ({| catalog.categories_repo := r' |},
     api.OKResponse {| catalog.Category_Code := models.Category_Code c;
                       catalog.Category_Name := models.Category_Name c |}).
Proof.
  intros Hcode Hname Hrepo. unfold catalog.CreateCategory.
  apply String.eqb_neq in Hcode, Hname. rewrite Hcode, Hname.
  unfold category_of_request in Hrepo. by rewrite Hrepo.
Qed.

(** X19: CreateCategory answers 400 exactly when the body does not decode or
    the code or the name of the request is empty, and then the repository is
    as it was. *)
Theorem CreateCategory_bad_request (h : catalog.CategoriesHandler R)
    (body : option catalog.CreateCategoryRequest) :
  let invalid :=
    body = None
    ∨ ∃ req, body = Some req
             ∧ (catalog.Request_Code req = "" ∨ catalog.Request_Name req = "") in
  (api.status_code (catalog.CreateCategory h body).2 = http.StatusBadRequest
   ↔ invalid)
  ∧ (invalid → (catalog.CreateCategory h body).1 = h).
Proof.
  intros invalid. subst invalid. unfold catalog.CreateCategory.
  destruct body as [req|]; [|split; [split; [by left|done]|done]].
  destruct (String.eqb (catalog.Request_Code req) "") eqn:Hcode.
  { apply String.eqb_eq in Hcode.
    split; [split; [intros _; right; exists req; auto|done]|done]. }
  destruct (String.eqb (catalog.Request_Name req) "") eqn:Hname.
  { apply String.eqb_eq in Hname.
    split; [split; [intros _; right; exists req; auto|done]|done]. }
  apply String.eqb_neq in Hcode, Hname.
  assert (Hvalid : ¬ (Some req = None
                      ∨ ∃ req', Some req = Some req'
                                ∧ (catalog.Request_Code req' = ""
                                   ∨ catalog.Request_Name req' = ""))).
  { intros [?|(req' & [= <-] & [?|?])]; done. }
  split; [|done]. split; [|done].
  destruct (models.CreateCategory _ _) as [[r c] [err|]]; [|discriminate].
  repeat case_match; discriminate.
Qed.

(** X20: the statuses of the categories endpoints are closed sets:
    GetCategories answers 200, 503 or 500, and CreateCategory 200, 400, 409,
    503 or 500, whatever the repository does. *)
Theorem categories_handler_statuses (h : catalog.CategoriesHandler R)
    (body : option catalog.CreateCategoryRequest) :
  api.status_code (catalog.GetCategories h) ∈ [200; 503; 500]
  ∧ api.status_code (catalog.CreateCategory h body).2 ∈ [200; 400; 409; 503; 500].
Proof.
  unfold catalog.GetCategories, catalog.CreateCategory. split.
  - destruct (models.GetAllCategories _) as [cs [err|]]; [|status_in_list].
    destruct (String.eqb _ _); status_in_list.
  - destruct body as [req|]; [|status_in_list].
    destruct (String.eqb _ ""); [status_in_list|].
    destruct (String.eqb _ ""); [status_in_list|].
    destruct (models.CreateCategory _ _) as [[r c] [err|]]; [|status_in_list].
    destruct (String.eqb _ _); [status_in_list|].
    destruct (_ || _); status_in_list.
Qed.

End MoreCategoriesHandlerProperties.

(** ** Further properties across the layers *)

(** X21: when the repository delivers its rows, GetCatalog answers 200 with
    one product per row in the order of the rows, each with the code, the
    converted price and the category name of its row, and with the number of
    rows as the total. *)
Theorem GetCatalog_lists_rows {R : Type} `{!models.ProductsRepositoryInterface R}
    (s : catalog.catalogService R) (rows : list models.Product) :
  models.GetAllProducts (catalog.repo s) = (rows, None) →
  ∃ products,
    catalog.GetCatalog {| catalog.service := s |}
      = api.OKResponse {| catalog.Products := products;
                          catalog.Total := Z.of_nat (length rows) |}
    ∧ ∀ (i : nat) (p : models.Product),
        rows !! i = Some p →
        products !! i
          = Some {| catalog.Code := models.Code p;
                    catalog.Price := InexactFloat64 (models.Price p);
                    catalog.Category_ :=
                      models.Category_Name (models.Category_ p) |}.
Proof.
  intros Hrepo. exists (catalog.to_api_product <$> rows).
  unfold catalog.GetCatalog; simpl.
  rewrite (GetProducts_success s rows Hrepo), length_fmap.
  split; [done|].
  intros i p Hp. by rewrite list_lookup_fmap, Hp.
Qed.

(** X22: over a store that answers, GetCategoryByCode returns the empty
    category with gorm's record-not-found error when no category carries the
    code, and otherwise a category of the table with exactly that code and
    no error. *)
Theorem GetCategoryByCode_lookup (d : models.DB) (code : string) :
  models.fault d = None →
  let result :=
    models.CategoriesRepository_GetCategoryByCode {| models.cdb := d |} code in
  ((∀ c, c ∈ models.categories d → models.Category_Code c ≠ code) →
   result = (models.Category_zero, Some gorm.ErrRecordNotFound))
  ∧ (∀ row, row ∈ models.categories d → models.Category_Code row = code →
       ∃ c, result = (c, None)
            ∧ c ∈ models.categories d
            ∧ models.Category_Code c = code).
Proof.
  intros Hfault result. subst result.
  unfold models.CategoriesRepository_GetCategoryByCode; simpl. rewrite Hfault.
  set (q := gorm_db.Where (λ c, String.eqb (models.Category_Code c) code)
              (gorm_db.Model (models.categories d))).
  assert (Hsel : ∀ c, In c (List.filter (gorm_db.selected q) (gorm_db.table q))
                      ↔ c ∈ models.categories d ∧ models.Category_Code c = code).
  { intros c. subst q. simpl. rewrite filter_In, list_elem_of_In.
    unfold gorm_db.selected; simpl. by rewrite andb_true_r, String.eqb_eq. }
  split.
  - intros Hnone.
    rewrite (First_not_found models.Category_ID q models.Category_zero); [done|].
    intros c Hc. subst q. rewrite selected_Where; simpl.
    apply String.eqb_neq, Hnone. by apply list_elem_of_In.
  - intros row Hrow Hcode.
    destruct (First_found models.Category_ID q models.Category_zero row eq_refl)
      as (c & Hfirst & Hc & _); [by apply Hsel|].
    apply Hsel in Hc as [Hc Hcc].
    exists c. by rewrite Hfirst.
Qed.

(** X23: over a store that answers, a first page of GetProductsPaginated
    that is at least as long as the table holds every product that
    GetProducts returns, each as often. *)
Theorem GetProductsPaginated_whole_table (d : models.DB) (limit : Z) :
  models.fault d = None →
  Z.of_nat (length (models.products d)) ≤ limit →
  let s := {| catalog.repo := {| models.db := d |} |} in
  Permutation (catalog.catalogService_GetProductsPaginated s 0 limit).1.1
    (catalog.catalogService_GetProducts s).1.
Proof.
  intros Hfault Hlimit s. subst s.
  unfold catalog.catalogService_GetProductsPaginated; simpl.
  rewrite (paginated_query_rows d 0 limit Hfault), (count_query_rows d Hfault).
  rewrite (GetProducts_success {| catalog.repo := {| models.db := d |} |}
             (models.products d)).
  - rewrite make_and_fill_fmap. cbn [fst].
    rewrite window_drop_take by lia.
    change (Z.to_nat 0) with 0%nat. rewrite drop_0.
    rewrite take_ge by lia. done.
  - simpl. unfold models.ProductsRepository_GetAllProducts, gorm_db.Find; simpl.
    rewrite Hfault. unfold gorm_db.run, gorm_db.paged, gorm_db.ordered; simpl.
    by rewrite filter_all.
Qed.

(** X24: over a store that answers, an offset at or past the number of
    matching products gives an empty page of
    GetProductsPaginatedWithFilters while the total stays the number of
    matching products. *)
Theorem filtered_page_past_end (d : models.DB) (offset limit : Z)
    (category : string) (priceLt : option float64) :
  models.fault d = None →
  0 < limit →
  let matching :=
    List.filter (filter_matches category priceLt) (models.products d) in
  Z.of_nat (length matching) ≤ offset →
  catalog.catalogService_GetProductsPaginatedWithFilters
    {| catalog.repo := {| models.db := d |} |} offset limit category priceLt
  = ([], Z.of_nat (length matching), None).
Proof.
  intros Hfault Hlimit matching Hoffset.
  unfold catalog.catalogService_GetProductsPaginatedWithFilters; simpl.
  rewrite (paginated_query_filter d offset limit category priceLt Hfault).
  rewrite (count_query_filter d category priceLt Hfault).
  rewrite make_and_fill_fmap.
  rewrite window_drop_take by lia.
  rewrite drop_ge; [by rewrite take_nil|].
  rewrite (Permutation_length (sort_by_Permutation models.code_asc _)).
  fold matching. lia.
Qed.

End Properties.

(** * The code on concrete inputs *)

(** ** The tests of the repository *)

Example TestCatalogService_GetProducts_Success :
  catalog.catalogService_GetProducts
    {| catalog.repo :=
         fixtures.products_mock ([fixtures.PROD001; fixtures.PROD002], None) |}
  = (fixtures.expectedProducts, None).
Proof. reflexivity. Qed.

Example TestCatalogService_GetProducts_RepositoryError :
  catalog.catalogService_GetProducts
    {| catalog.repo :=
         fixtures.products_mock ([], Some (errors_New "database connection failed")) |}
  = ([], Some (errors_New "database connection failed")).
Proof. reflexivity. Qed.

Example TestCatalogService_GetProductByCode_Success :
  catalog.catalogService_GetProductByCode
    {| catalog.repo := fixtures.products_mock ([], None) |} "PROD001"
  = (fixtures.expectedProduct, None).
Proof. reflexivity. Qed.

Example TestCatalogHandler_GetCatalog_Success :
  catalog.GetCatalog
    {| catalog.service :=
         fixtures.service_mock (fixtures.expectedProducts, None)
           (λ _, (catalog.ProductDetails_zero, Some fixtures.unexpected_call)) |}
  = api.OKResponse
      {| catalog.Products := fixtures.expectedProducts; catalog.Total := 2 |}.
Proof. reflexivity. Qed.

Example TestCatalogHandler_GetProductDetails_NotFound :
  api.status_code
    (catalog.GetProductDetails
       {| catalog.service :=
            fixtures.service_mock ([], Some fixtures.unexpected_call)
              (λ _, (catalog.ProductDetails_zero, Some (errors_New "record not found"))) |}
       "/catalog/INVALID")
  = http.StatusInternalServerError.
Proof. reflexivity. Qed.

Example TestCategoriesHandler_CreateCategory_DuplicateCode :
  snd (catalog.CreateCategory
         {| catalog.categories_repo :=
              fixtures.categories_mock ([], None)
                (Some (errors_New "UNIQUE constraint failed: categories.code")) |}
         (Some {| catalog.Request_Code := "CATGORY001";
                  catalog.Request_Name := "Electronics" |}))
  = api.ErrorResponse http.StatusConflict "Category with this code already exists".
Proof. reflexivity. Qed.

(** The catalog of an empty store. *)
Example GetCatalog_empty_store :
  catalog.GetCatalog
    {| catalog.service :=
         {| catalog.repo := {| models.db := fixtures.empty_store |} |} |}
  = api.OKResponse {| catalog.Products := []; catalog.Total := 0 |}.
Proof. reflexivity. Qed.

(** The details of PROD001 from the store, through repository, service and
    handler. *)
Example GetProductDetails_PROD001 :
  catalog.GetProductDetails
    {| catalog.service := {| catalog.repo := {| models.db := fixtures.store |} |} |}
    "/catalog/PROD001"
  = api.OKResponse fixtures.expectedProduct.
Proof. reflexivity. Qed.

(** A destination that carries the ID of another product finds nothing. *)
Example GetProductByCode_destination_with_ID :
  let dest :=
    {| models.ID := 2; models.Code := ""; models.Price := decimal.unset;
       models.Category_ := models.Category_zero; models.Variants := [] |} in
  models.ProductsRepository_GetProductByCode {| models.db := fixtures.store |}
    "PROD001" dest
  = (dest, Some gorm.ErrRecordNotFound).
Proof. reflexivity. Qed.

(** Codes are compared exactly: the lower-case spelling finds nothing. *)
Example GetProductDetails_prod001 :
  catalog.GetProductDetails
    {| catalog.service := {| catalog.repo := {| models.db := fixtures.store |} |} |}
    "/catalog/prod001"
  = api.ErrorResponse http.StatusNotFound "Product not found".
Proof. reflexivity. Qed.

(** With a bound of 30.00 the product priced 30.00 is left out, of the page
    and of the total. *)
Example GetProductsPaginatedWithFilters_priceLt_30 :
  catalog.catalogService_GetProductsPaginatedWithFilters
    {| catalog.repo := {| models.db := fixtures.store |} |} 0 10 "" (Some 3000)
  = ([ {| catalog.Code := "PROD001"; catalog.Price := 2999;
          catalog.Category_ := "Clothing" |} ], 1, None).
Proof. reflexivity. Qed.

(** The category filter reads the name: the code of the category finds
    nothing. *)
Example GetProductsPaginatedWithFilters_category :
  catalog.catalogService_GetProductsPaginatedWithFilters
    {| catalog.repo := {| models.db := fixtures.store |} |} 0 10 "Shoes" None
  = ([ {| catalog.Code := "PROD002"; catalog.Price := 4999;
          catalog.Category_ := "Shoes" |} ], 1, None)
  ∧ catalog.catalogService_GetProductsPaginatedWithFilters
      {| catalog.repo := {| models.db := fixtures.store |} |} 0 10 "CATGORY002" None
    = ([], 0, None).
Proof. split; reflexivity. Qed.

(** ** The properties at the test data *)

Lemma GetProductByCode_effective_price_PROD001 :
  let s := {| catalog.repo := fixtures.products_mock ([], None) |} in
  catalog.catalogService_GetProductByCode s "PROD001"
    = (fixtures.expectedProduct, None)
  ∧ ∃ dbProduct,
      models.GetProductByCode (catalog.repo s) "PROD001" models.Product_zero
        = (dbProduct, None) ∧
      catalog.Details_Price fixtures.expectedProduct
        = InexactFloat64 (models.Price dbProduct) ∧
      ∀ (i : nat) (v : models.Variant),
        models.Variants dbProduct !! i = Some v →
        ∃ v',
          catalog.Details_Variants fixtures.expectedProduct !! i = Some v' ∧
          (decimal.value (models.Variant_Price v) = None
           ∨ decimal.value (models.Variant_Price v) = Some 0 →
           catalog.Variant_Price v'
             = catalog.Details_Price fixtures.expectedProduct) ∧
          ((∃ z, decimal.value (models.Variant_Price v) = Some z ∧ z ≠ 0) →
           catalog.Variant_Price v' = InexactFloat64 (models.Variant_Price v)).
Proof.
  intros s. split; [reflexivity|].
  apply (GetProductByCode_effective_price s "PROD001" fixtures.expectedProduct).
  reflexivity.
Defined.

Lemma GetProductByCode_variant_order_PROD001 :
  let s := {| catalog.repo := fixtures.products_mock ([], None) |} in
  catalog.catalogService_GetProductByCode s "PROD001"
    = (fixtures.expectedProduct, None)
  ∧ ∃ dbProduct,
      models.GetProductByCode (catalog.repo s) "PROD001" models.Product_zero
        = (dbProduct, None) ∧
      length (catalog.Details_Variants fixtures.expectedProduct)
        = length (models.Variants dbProduct) ∧
      ∀ i : nat,
        catalog.Details_Variants fixtures.expectedProduct !! i
          = catalog.to_api_variant dbProduct <$> models.Variants dbProduct !! i
        ∧ (catalog.Name <$> catalog.Details_Variants fixtures.expectedProduct !! i)
            = (models.Variant_Name <$> models.Variants dbProduct !! i)
        ∧ (catalog.SKU <$> catalog.Details_Variants fixtures.expectedProduct !! i)
            = (models.Variant_SKU <$> models.Variants dbProduct !! i).
Proof.
  intros s. split; [reflexivity|].
  apply (GetProductByCode_variant_order s "PROD001" fixtures.expectedProduct).
  reflexivity.
Defined.

Lemma TestCatalogService_GetProducts_EmptyResult :
  let s := {| catalog.repo := fixtures.products_mock ([], None) |} in
  models.GetAllProducts (catalog.repo s) = ([], None)
  ∧ catalog.catalogService_GetProducts s = ([], None).
Proof.
  intros s. split; [reflexivity|].
  apply (GetProducts_empty s). reflexivity.
Defined.

Lemma GetCatalog_total_expectedProducts :
  let h := {| catalog.service :=
                fixtures.service_mock (fixtures.expectedProducts, None)
                  (λ _, (catalog.ProductDetails_zero, Some fixtures.unexpected_call)) |} in
  let response :=
    {| catalog.Products := fixtures.expectedProducts; catalog.Total := 2 |} in
  catalog.GetCatalog h = api.OKResponse response
  ∧ catalog.Total response = Z.of_nat (length (catalog.Products response)).
Proof.
  intros h response. split; [reflexivity|].
  apply (GetCatalog_total h response). reflexivity.
Defined.


Lemma CreateCategory_validation_missing :
  let h := {| catalog.categories_repo := fixtures.categories_mock ([], None) None |} in
  catalog.CreateCategory h
    (Some {| catalog.Request_Code := ""; catalog.Request_Name := "" |})
    = (h, api.ErrorResponse http.StatusBadRequest "Code is required")
  ∧ catalog.CreateCategory h
      (Some {| catalog.Request_Code := "CATGORY004"; catalog.Request_Name := "" |})
    = (h, api.ErrorResponse http.StatusBadRequest "Name is required").
Proof.
  intros h. split.
  - apply (proj1 (CreateCategory_validation h "" "")). reflexivity.
  - apply (proj2 (CreateCategory_validation h "CATGORY004" "")).
    + discriminate.
    + reflexivity.
Defined.

Lemma CreateCategory_conflict_duplicate :
  let err := errors_New "UNIQUE constraint failed: categories.code" in
  let h := {| catalog.categories_repo :=
                fixtures.categories_mock ([], None) (Some err) |} in
  let req := {| catalog.Request_Code := "CATGORY001";
                catalog.Request_Name := "Electronics" |} in
  (catalog.Request_Code req ≠ "" ∧ catalog.Request_Name req ≠ ""
   ∧ models.CreateCategory (catalog.categories_repo h) (category_of_request req)
     = (catalog.categories_repo h, category_of_request req, Some err))
  ∧ ((Error err = "UNIQUE constraint failed: categories.code"
      ∨ Error err = "duplicate key value violates unique constraint")
     ↔ snd (catalog.CreateCategory h (Some req))
         = api.ErrorResponse http.StatusConflict
             "Category with this code already exists").
Proof.
  intros err h req.
  assert (Hcode : catalog.Request_Code req ≠ "") by discriminate.
  assert (Hname : catalog.Request_Name req ≠ "") by discriminate.
  split; [by repeat split|].
  apply (CreateCategory_conflict h req (catalog.categories_repo h)
           (category_of_request req) err);
    [exact Hcode | exact Hname | reflexivity].
Defined.

Lemma connectivity_failure_unavailable_tests :
  let err := errors_New "database connection failed" in
  let unavailable {A} : api.Reply A :=
    api.ErrorResponse http.StatusServiceUnavailable
      (BuildErrorMessage "Database service is temporarily unavailable: " err) in
  Error err = "database connection failed"
  ∧ catalog.GetCatalog
      {| catalog.service :=
           {| catalog.repo := fixtures.products_mock ([], Some err) |} |}
    = unavailable
  ∧ catalog.GetCategories
      {| catalog.categories_repo := fixtures.categories_mock ([], Some err) None |}
    = unavailable
  ∧ snd (catalog.CreateCategory
           {| catalog.categories_repo :=
                fixtures.categories_mock ([], None) (Some err) |}
           (Some {| catalog.Request_Code := "CATGORY004";
                    catalog.Request_Name := "Electronics" |}))
    = unavailable.
Proof.
  intros err unavailable.
  destruct (connectivity_failure_unavailable err eq_refl) as (Hlist & Hcats & Hcreate).
  split; [reflexivity|]. split; [|split].
  - refine (proj1 (Hlist _ _ {| catalog.repo := fixtures.products_mock ([], Some err) |}
                     [] _)).
    reflexivity.
  - refine (proj1 (Hcats _ _
                     {| catalog.categories_repo :=
                          fixtures.categories_mock ([], Some err) None |} [] _)).
    reflexivity.
  - refine (proj1 (Hcreate _ _
                     {| catalog.categories_repo :=
                          fixtures.categories_mock ([], None) (Some err) |}
                     {| catalog.Request_Code := "CATGORY004";
                        catalog.Request_Name := "Electronics" |}
                     (fixtures.categories_mock ([], None) (Some err))
                     (category_of_request
                        {| catalog.Request_Code := "CATGORY004";
                           catalog.Request_Name := "Electronics" |})
                     _ _ _)); [discriminate | discriminate | reflexivity].
Defined.

Lemma GetProductsPaginatedWithFilters_filtered_Shoes :
  models.fault fixtures.store = None
  ∧ catalog.catalogService_GetProductsPaginatedWithFilters
      {| catalog.repo := {| models.db := fixtures.store |} |} 0 10 "Shoes" (Some 5000)
    = (catalog.to_api_product <$> [fixtures.PROD002], 1, None).
Proof.
  split; [reflexivity|].
  exact (proj1 (GetProductsPaginatedWithFilters_filtered fixtures.store 0 10
                  "Shoes" (Some 5000) eq_refl)).
Defined.

Lemma unknown_code_not_found_UNKNOWN :
  let s := {| catalog.repo := {| models.db := fixtures.store |} |} in
  (models.fault fixtures.store = None
   ∧ (∀ p, p ∈ models.products fixtures.store → models.Code p ≠ "UNKNOWN")
   ∧ routed_code "/catalog/UNKNOWN" = Some "UNKNOWN")
  ∧ catalog.catalogService_GetProductByCode s "UNKNOWN"
    = (catalog.ProductDetails_zero, Some gorm.ErrRecordNotFound)
  ∧ catalog.GetProductDetails {| catalog.service := s |} "/catalog/UNKNOWN"
    = api.ErrorResponse http.StatusNotFound "Product not found".
Proof.
  intros s.
  assert (Hnone : ∀ p, p ∈ models.products fixtures.store →
                       models.Code p ≠ "UNKNOWN").
  { intros p Hp. apply list_elem_of_In in Hp. simpl in Hp.
    destruct Hp as [<-|[<-|[<-|[]]]]; discriminate. }
  assert (Hroute : routed_code "/catalog/UNKNOWN" = Some "UNKNOWN") by reflexivity.
  split; [by repeat split|].
  destruct (unknown_code_not_found fixtures.store "UNKNOWN" eq_refl Hnone)
    as (Hsvc & Hreply & _).
  split; [exact Hsvc | exact (proj1 (Hreply "/catalog/UNKNOWN" Hroute))].
Defined.

(** ** The further properties at the test data *)

Lemma GetProducts_maps_rows_tests :
  let s := {| catalog.repo :=
                fixtures.products_mock ([fixtures.PROD001; fixtures.PROD002], None) |} in
  models.GetAllProducts (catalog.repo s) = ([fixtures.PROD001; fixtures.PROD002], None)
  ∧ ∃ products,
      catalog.catalogService_GetProducts s = (products, None)
      ∧ length products = 2%nat.
Proof.
  intros s.
  assert (Hrepo : models.GetAllProducts (catalog.repo s)
                  = ([fixtures.PROD001; fixtures.PROD002], None)) by reflexivity.
  split; [exact Hrepo|].
  destruct (GetProducts_maps_rows s [fixtures.PROD001; fixtures.PROD002] Hrepo)
    as (products & Hsvc & Hlen & _).
  exists products. split; [exact Hsvc | exact Hlen].
Defined.

Lemma GetProductsPaginated_failure_tests :
  let failing := {| catalog.repo :=
                      fixtures.paging_mock ([], Some fixtures.connection_failed)
                        (2, None) |} in
  let miscounting := {| catalog.repo :=
                          fixtures.paging_mock ([fixtures.PROD001], None)
                            (0, Some fixtures.connection_failed) |} in
  catalog.catalogService_GetProductsPaginated failing 0 10
    = ([], 0, Some fixtures.connection_failed)
  ∧ catalog.catalogService_GetProductsPaginated miscounting 0 10
    = ([], 0, Some fixtures.connection_failed).
Proof.
  intros failing miscounting. split.
  - apply (proj1 (GetProductsPaginated_failure failing 0 10 []
                    fixtures.connection_failed)).
    reflexivity.
  - apply (proj2 (GetProductsPaginated_failure miscounting 0 10 [fixtures.PROD001]
                    fixtures.connection_failed) 0); reflexivity.
Defined.

Lemma GetProductsPaginatedWithFilters_failure_tests :
  let failing := {| catalog.repo :=
                      fixtures.paging_mock ([], Some fixtures.connection_failed)
                        (2, None) |} in
  let miscounting := {| catalog.repo :=
                          fixtures.paging_mock ([fixtures.PROD001], None)
                            (0, Some fixtures.connection_failed) |} in
  catalog.catalogService_GetProductsPaginatedWithFilters failing 0 10 "Shoes" None
    = ([], 0, Some fixtures.connection_failed)
  ∧ catalog.catalogService_GetProductsPaginatedWithFilters miscounting 0 10
      "Shoes" None
    = ([], 0, Some fixtures.connection_failed).
Proof.
  intros failing miscounting. split.
  - apply (proj1 (GetProductsPaginatedWithFilters_failure failing 0 10 "Shoes"
                    None [] fixtures.connection_failed)).
    reflexivity.
  - apply (proj2 (GetProductsPaginatedWithFilters_failure miscounting 0 10
                    "Shoes" None [fixtures.PROD001] fixtures.connection_failed) 0);
      reflexivity.
Defined.

Lemma GetProductsPaginated_success_tests :
  let s := {| catalog.repo :=
                fixtures.paging_mock ([fixtures.PROD001], None) (8, None) |} in
  (models.GetProductsPaginated (catalog.repo s) 0 1 = ([fixtures.PROD001], None)
   ∧ models.GetProductsCount (catalog.repo s) = (8, None))
  ∧ ∃ products,
      catalog.catalogService_GetProductsPaginated s 0 1 = (products, 8, None)
      ∧ length products = 1%nat.
Proof.
  intros s.
  assert (Hpage : models.GetProductsPaginated (catalog.repo s) 0 1
                  = ([fixtures.PROD001], None)) by reflexivity.
  assert (Hcount : models.GetProductsCount (catalog.repo s) = (8, None))
    by reflexivity.
  split; [by split|].
  destruct (GetProductsPaginated_success s 0 1 [fixtures.PROD001] 8 Hpage Hcount)
    as (products & Hsvc & Hlen & _).
  exists products. split; [exact Hsvc | exact Hlen].
Defined.

Lemma GetProductsPaginated_store_tests :
  models.fault fixtures.store = None
  ∧ ∃ rows,
      catalog.catalogService_GetProductsPaginated
        {| catalog.repo := {| models.db := fixtures.store |} |} 1 1
      = (catalog.to_api_product <$> rows, 3, None)
      ∧ ∀ p, p ∈ rows → p ∈ models.products fixtures.store.
Proof.
  split; [reflexivity|].
  exact (GetProductsPaginated_store fixtures.store 1 1 eq_refl).
Defined.

Lemma paginated_page_size_tests :
  let s := {| catalog.repo := {| models.db := fixtures.store |} |} in
  (models.fault fixtures.store = None ∧ 0 < 2)
  ∧ Z.of_nat (length (catalog.catalogService_GetProductsPaginated s 0 2).1.1) ≤ 2
  ∧ Z.of_nat (length (catalog.catalogService_GetProductsPaginatedWithFilters s
                        0 2 "" None).1.1) ≤ 2.
Proof.
  intros s. split; [split; [reflexivity|lia]|].
  apply (paginated_page_size fixtures.store 0 2 "" None); [reflexivity|lia].
Defined.

Lemma filtered_page_ascending_tests :
  (∀ a b, sql_text_le a b = true ∨ sql_text_le b a = true)
  ∧ Sorted (λ x y, sql_text_le (catalog.Code x) (catalog.Code y) = true)
      (catalog.catalogService_GetProductsPaginatedWithFilters
         {| catalog.repo := {| models.db := fixtures.store |} |} 0 10 "" None).1.1.
Proof.
  split; [exact String.leb_total|].
  apply (filtered_page_ascending fixtures.store 0 10 "" None).
  exact String.leb_total.
Defined.

Lemma filtered_pages_join_tests :
  let page off lim :=
    (catalog.catalogService_GetProductsPaginatedWithFilters
       {| catalog.repo := {| models.db := fixtures.store |} |} off lim "" None).1.1 in
  (models.fault fixtures.store = None ∧ 0 ≤ 0 ∧ 0 < 1 ∧ 0 < 2)
  ∧ (page 0 1 ++ page (0 + 1) 2)%list = page 0 (1 + 2).
Proof.
  intros page. split; [repeat split; lia|].
  apply (filtered_pages_join fixtures.store 0 1 2 "" None); [reflexivity|lia..].
Defined.

Lemma GetProductByCode_finds_row_PROD001 :
  (models.fault fixtures.store = None
   ∧ models.ID models.Product_zero = 0
   ∧ fixtures.PROD001 ∈ models.products fixtures.store
   ∧ models.Code fixtures.PROD001 = "PROD001")
  ∧ ∃ p,
      models.ProductsRepository_GetProductByCode {| models.db := fixtures.store |}
        "PROD001" models.Product_zero = (p, None)
      ∧ p ∈ models.products fixtures.store
      ∧ models.Code p = "PROD001"
      ∧ ∀ q, q ∈ models.products fixtures.store → models.Code q = "PROD001" →
             models.ID p ≤ models.ID q.
Proof.
  assert (Hrow : fixtures.PROD001 ∈ models.products fixtures.store).
  { apply list_elem_of_In. simpl. auto. }
  split; [by repeat split|].
  apply (GetProductByCode_finds_row fixtures.store "PROD001" models.Product_zero
           fixtures.PROD001); [reflexivity | reflexivity | exact Hrow | reflexivity].
Defined.

Lemma GetProductDetails_found_PROD001 :
  (models.fault fixtures.store = None
   ∧ fixtures.PROD001 ∈ models.products fixtures.store
   ∧ models.Code fixtures.PROD001 = "PROD001"
   ∧ "PROD001" ≠ "")
  ∧ ∃ p,
      p ∈ models.products fixtures.store
      ∧ models.Code p = "PROD001"
      ∧ catalog.GetProductDetails
          {| catalog.service :=
               {| catalog.repo := {| models.db := fixtures.store |} |} |}
          ("/catalog/" ++ "PROD001")
        = api.OKResponse
            {| catalog.Details_Code := "PROD001";
               catalog.Details_Price := InexactFloat64 (models.Price p);
               catalog.Details_Category :=
                 models.Category_Name (models.Category_ p);
               catalog.Details_Variants :=
                 catalog.to_api_variant p <$> models.Variants p |}.
Proof.
  assert (Hrow : fixtures.PROD001 ∈ models.products fixtures.store).
  { apply list_elem_of_In. simpl. auto. }
  assert (Hne : "PROD001" ≠ "") by discriminate.
  split; [by repeat split|].
  apply (GetProductDetails_found fixtures.store "PROD001" fixtures.PROD001);
    [reflexivity | exact Hrow | reflexivity | exact Hne].
Defined.

Lemma GetProductDetails_failure_status_tests :
  let h := {| catalog.service :=
                fixtures.service_mock ([], Some fixtures.unexpected_call)
                  (λ _, (catalog.ProductDetails_zero,
                         Some fixtures.connection_failed)) |} in
  let status := api.status_code (catalog.GetProductDetails h "/catalog/PROD001") in
  (strings_TrimPrefix "/catalog/PROD001" "/catalog/" ≠ ""
   ∧ catalog.GetProductByCode (catalog.service h)
       (strings_TrimPrefix "/catalog/PROD001" "/catalog/")
     = (catalog.ProductDetails_zero, Some fixtures.connection_failed))
  ∧ (status = http.StatusNotFound
     ↔ fixtures.connection_failed = gorm.ErrRecordNotFound)
  ∧ (status = http.StatusServiceUnavailable
     ↔ fixtures.connection_failed ≠ gorm.ErrRecordNotFound
       ∧ Error fixtures.connection_failed = "database connection failed")
  ∧ (status = http.StatusInternalServerError
     ↔ fixtures.connection_failed ≠ gorm.ErrRecordNotFound
       ∧ Error fixtures.connection_failed ≠ "database connection failed").
Proof.
  intros h status.
  assert (Hcode : strings_TrimPrefix "/catalog/PROD001" "/catalog/" ≠ "")
    by discriminate.
  assert (Hsvc : catalog.GetProductByCode (catalog.service h)
                   (strings_TrimPrefix "/catalog/PROD001" "/catalog/")
                 = (catalog.ProductDetails_zero, Some fixtures.connection_failed))
    by reflexivity.
  split; [by split|].
  exact (GetProductDetails_failure_status h "/catalog/PROD001"
           catalog.ProductDetails_zero fixtures.connection_failed Hcode Hsvc).
Defined.

Lemma GetProductDetails_success_tests :
  let h := {| catalog.service :=
                fixtures.service_mock ([], Some fixtures.unexpected_call)
                  (λ _, (fixtures.expectedProduct, None)) |} in
  (strings_TrimPrefix "/catalog/PROD001" "/catalog/" ≠ ""
   ∧ catalog.GetProductByCode (catalog.service h)
       (strings_TrimPrefix "/catalog/PROD001" "/catalog/")
     = (fixtures.expectedProduct, None))
  ∧ catalog.GetProductDetails h "/catalog/PROD001"
    = api.OKResponse fixtures.expectedProduct
  ∧ api.status_code (catalog.GetProductDetails h "/catalog/PROD001")
    = http.StatusOK.
Proof.
  intros h.
  assert (Hcode : strings_TrimPrefix "/catalog/PROD001" "/catalog/" ≠ "")
    by discriminate.
  assert (Hsvc : catalog.GetProductByCode (catalog.service h)
                   (strings_TrimPrefix "/catalog/PROD001" "/catalog/")
                 = (fixtures.expectedProduct, None)) by reflexivity.
  split; [by split|].
  exact (GetProductDetails_success h "/catalog/PROD001" fixtures.expectedProduct
           Hcode Hsvc).
Defined.

Lemma GetCatalog_failure_status_tests :
  let err := errors_New "some other error" in
  let h := {| catalog.service :=
                fixtures.service_mock ([], Some err)
                  (λ _, (catalog.ProductDetails_zero, Some fixtures.unexpected_call)) |} in
  (catalog.GetProducts (catalog.service h) = ([], Some err)
   ∧ Error err ≠ "database connection failed")
  ∧ catalog.GetCatalog h
    = api.ErrorResponse http.StatusInternalServerError
        (BuildErrorMessage "Unable to retrieve products at this time: " err).
Proof.
  intros err h.
  assert (Hsvc : catalog.GetProducts (catalog.service h) = ([], Some err))
    by reflexivity.
  assert (Htext : Error err ≠ "database connection failed") by discriminate.
  split; [by split|].
  destruct (GetCatalog_failure_status h [] err Hsvc) as (_ & Hother & _).
  exact (Hother Htext).
Defined.

Lemma GetCategories_failure_status_tests :
  let err := errors_New "some other error" in
  let h := {| catalog.categories_repo :=
                fixtures.categories_mock ([], Some err) None |} in
  (models.GetAllCategories (catalog.categories_repo h) = ([], Some err)
   ∧ Error err ≠ "database connection failed")
  ∧ catalog.GetCategories h
    = api.ErrorResponse http.StatusInternalServerError
        (BuildErrorMessage "Unable to retrieve categories at this time: " err).
Proof.
  intros err h.
  assert (Hrepo : models.GetAllCategories (catalog.categories_repo h)
                  = ([], Some err)) by reflexivity.
  assert (Htext : Error err ≠ "database connection failed") by discriminate.
  split; [by split|].
  destruct (GetCategories_failure_status h [] err Hrepo) as (_ & Hother & _).
  exact (Hother Htext).
Defined.

Lemma GetCategories_success_tests :
  let cs := [fixtures.Clothing; fixtures.Shoes; fixtures.Accessories] in
  let h := {| catalog.categories_repo := fixtures.categories_mock (cs, None) None |} in
  models.GetAllCategories (catalog.categories_repo h) = (cs, None)
  ∧ ∃ categories,
      catalog.GetCategories h = api.OKResponse categories
      ∧ length categories = 3%nat
      ∧ categories !! 1%nat
        = Some {| catalog.Category_Code := "CATGORY002";
                  catalog.Category_Name := "Shoes" |}.
Proof.
  intros cs h.
  assert (Hrepo : models.GetAllCategories (catalog.categories_repo h) = (cs, None))
    by reflexivity.
  split; [exact Hrepo|].
  destruct (GetCategories_success h cs Hrepo) as (categories & Hreply & Hlen & _ & Hat).
  exists categories. split; [exact Hreply|]. split; [exact Hlen|].
  exact (Hat 1%nat fixtures.Shoes eq_refl).
Defined.

Lemma CreateCategory_internal_tests :
  let err := errors_New "some other error" in
  let h := {| catalog.categories_repo :=
                fixtures.categories_mock ([], None) (Some err) |} in
  let req := {| catalog.Request_Code := "CATGORY004";
                catalog.Request_Name := "Electronics" |} in
  (catalog.Request_Code req ≠ "" ∧ catalog.Request_Name req ≠ ""
   ∧ models.CreateCategory (catalog.categories_repo h) (category_of_request req)
     = (catalog.categories_repo h, category_of_request req, Some err))
  ∧ (catalog.CreateCategory h (Some req)).2
    = api.ErrorResponse http.StatusInternalServerError
        (BuildErrorMessage "Unable to create category: " err).
Proof.
  intros err h req.
  assert (Hcode : catalog.Request_Code req ≠ "") by discriminate.
  assert (Hname : catalog.Request_Name req ≠ "") by discriminate.
  assert (Hrepo : models.CreateCategory (catalog.categories_repo h)
                    (category_of_request req)
                  = (catalog.categories_repo h, category_of_request req, Some err))
    by reflexivity.
  split; [by repeat split|].
  apply (CreateCategory_internal h req (catalog.categories_repo h)
           (category_of_request req) err Hcode Hname Hrepo).
  repeat split; discriminate.
Defined.

Lemma TestCategoriesHandler_CreateCategory_Success :
  let h := {| catalog.categories_repo := fixtures.categories_mock ([], None) None |} in
  let req := {| catalog.Request_Code := "CATGORY004";
                catalog.Request_Name := "Electronics" |} in
  (catalog.Request_Code req ≠ "" ∧ catalog.Request_Name req ≠ ""
   ∧ models.CreateCategory (catalog.categories_repo h) (category_of_request req)
     = (catalog.categories_repo h, category_of_request req, None))
  ∧ catalog.CreateCategory h (Some req)
    = (h, api.OKResponse {| catalog.Category_Code := "CATGORY004";
                            catalog.Category_Name := "Electronics" |}).
Proof.
  intros h req.
  assert (Hcode : catalog.Request_Code req ≠ "") by discriminate.
  assert (Hname : catalog.Request_Name req ≠ "") by discriminate.
  assert (Hrepo : models.CreateCategory (catalog.categories_repo h)
                    (category_of_request req)
                  = (catalog.categories_repo h, category_of_request req, None))
    by reflexivity.
  split; [by repeat split|].
  exact (CreateCategory_success h req (catalog.categories_repo h)
           (category_of_request req) Hcode Hname Hrepo).
Defined.

Lemma TestCategoriesHandler_CreateCategory_InvalidJSON :
  let h := {| catalog.categories_repo := fixtures.categories_mock ([], None) None |} in
  api.status_code (catalog.CreateCategory h None).2 = http.StatusBadRequest
  ∧ (catalog.CreateCategory h None).1 = h.
Proof.
  intros h.
  destruct (CreateCategory_bad_request h None) as [[_ Hstatus] Hrepo].
  split; [apply Hstatus | apply Hrepo]; by left.
Defined.

Lemma GetCatalog_lists_rows_tests :
  let rows := [fixtures.PROD001; fixtures.PROD002] in
  let s := {| catalog.repo := fixtures.products_mock (rows, None) |} in
  models.GetAllProducts (catalog.repo s) = (rows, None)
  ∧ ∃ products,
      catalog.GetCatalog {| catalog.service := s |}
        = api.OKResponse {| catalog.Products := products; catalog.Total := 2 |}
      ∧ products !! 1%nat
        = Some {| catalog.Code := "PROD002"; catalog.Price := 4999;
                  catalog.Category_ := "Shoes" |}.
Proof.
  intros rows s.
  assert (Hrepo : models.GetAllProducts (catalog.repo s) = (rows, None))
    by reflexivity.
  split; [exact Hrepo|].
  destruct (GetCatalog_lists_rows s rows Hrepo) as (products & Hreply & Hat).
  exists products. split; [exact Hreply|].
  exact (Hat 1%nat fixtures.PROD002 eq_refl).
Defined.

Lemma GetCategoryByCode_lookup_tests :
  (models.fault fixtures.store = None
   ∧ (∀ c, c ∈ models.categories fixtures.store →
           models.Category_Code c ≠ "CATGORY004")
   ∧ fixtures.Shoes ∈ models.categories fixtures.store
   ∧ models.Category_Code fixtures.Shoes = "CATGORY002")
  ∧ models.CategoriesRepository_GetCategoryByCode
      {| models.cdb := fixtures.store |} "CATGORY004"
    = (models.Category_zero, Some gorm.ErrRecordNotFound)
  ∧ ∃ c,
      models.CategoriesRepository_GetCategoryByCode
        {| models.cdb := fixtures.store |} "CATGORY002" = (c, None)
      ∧ c ∈ models.categories fixtures.store
      ∧ models.Category_Code c = "CATGORY002".
Proof.
  assert (Hnone : ∀ c, c ∈ models.categories fixtures.store →
                       models.Category_Code c ≠ "CATGORY004").
  { intros c Hc. apply list_elem_of_In in Hc. simpl in Hc.
    destruct Hc as [<-|[<-|[<-|[]]]]; discriminate. }
  assert (Hrow : fixtures.Shoes ∈ models.categories fixtures.store).
  { apply list_elem_of_In. simpl. auto. }
  split; [by repeat split|]. split.
  - exact (proj1 (GetCategoryByCode_lookup fixtures.store "CATGORY004" eq_refl)
             Hnone).
  - exact (proj2 (GetCategoryByCode_lookup fixtures.store "CATGORY002" eq_refl)
             fixtures.Shoes Hrow eq_refl).
Defined.

Lemma GetProductsPaginated_whole_table_tests :
  let s := {| catalog.repo := {| models.db := fixtures.store |} |} in
  (models.fault fixtures.store = None
   ∧ Z.of_nat (length (models.products fixtures.store)) ≤ 10)
  ∧ Permutation (catalog.catalogService_GetProductsPaginated s 0 10).1.1
      (catalog.catalogService_GetProducts s).1.
Proof.
  intros s.
  assert (Hlimit : Z.of_nat (length (models.products fixtures.store)) ≤ 10)
    by (simpl; lia).
  split; [by split|].
  exact (GetProductsPaginated_whole_table fixtures.store 10 eq_refl Hlimit).
Defined.

Lemma filtered_page_past_end_tests :
  (models.fault fixtures.store = None ∧ 0 < 10
   ∧ Z.of_nat (length (List.filter (filter_matches "Shoes" None)
                         (models.products fixtures.store))) ≤ 1)
  ∧ catalog.catalogService_GetProductsPaginatedWithFilters
      {| catalog.repo := {| models.db := fixtures.store |} |} 1 10 "Shoes" None
    = ([], 1, None).
Proof.
  assert (Hoffset : Z.of_nat (length (List.filter (filter_matches "Shoes" None)
                                        (models.products fixtures.store))) ≤ 1)
    by (simpl; lia).
  split; [split; [reflexivity|split; [lia|exact Hoffset]]|].
  apply (filtered_page_past_end fixtures.store 1 10 "Shoes" None);
    [reflexivity | lia | exact Hoffset].
Defined.
